(** * Path reconstruction for open files of a Linux process

    A shallow embedding of [LinuxUtilities]
    (volatility/framework/symbols/linux/__init__.py): the path walk
    [_do_get_path], the synthetic-name resolver [_get_new_sock_pipe_path],
    the facade [path_for_file] and the descriptor enumerator
    [files_descriptors_for_process].

    The typed-object layer the code reads through is not part of that file.
    It is taken as a parameter, a record of field reads each of which may fail
    with [InvalidAddressException]; a concrete arena of address-keyed tables
    instantiates it for the examples. *)

From Stdlib Require Import String Ascii List NArith ZArith Lia Sorted.
From Stdlib Require Import DecimalString HexadecimalString.
From stdpp Require Import base option list strings gmap.

Open Scope string_scope.

(** ** Python string operations used by the source *)

Module PyStr.

(** [s.lstrip(c)] for a one-character set. *)
Fixpoint lstrip (c : ascii) (s : string) : string :=
  match s with
  | EmptyString => EmptyString
  | String a s' => if Ascii.eqb a c then lstrip c s' else s
  end.

(** [s.rstrip(c)] for a one-character set. *)
Fixpoint rstrip (c : ascii) (s : string) : string :=
  match s with
  | EmptyString => EmptyString
  | String a s' =>
      match rstrip c s' with
      | EmptyString => if Ascii.eqb a c then EmptyString else String a EmptyString
      | r => String a r
      end
  end.

(** [s.strip(c)]. *)
Definition strip (c : ascii) (s : string) : string := rstrip c (lstrip c s).

(** [sep.join(l)]. *)
Definition join (sep : string) (l : list string) : string := String.concat sep l.

(** [s.startswith(p)]. *)
Definition startswith (p s : string) : bool := String.prefix p s.

(** [s.find(c) != -1] for a one-character needle. *)
Fixpoint contains (c : ascii) (s : string) : bool :=
  match s with
  | EmptyString => false
  | String a s' => if Ascii.eqb a c then true else contains c s'
  end.

(** [s[:-1]]: all but the last character; the empty string stays empty. *)
Fixpoint drop_last (s : string) : string :=
  match s with
  | EmptyString => EmptyString
  | String a EmptyString => EmptyString
  | String a s' => String a (drop_last s')
  end.

(** [s.replace(c, "")] for a one-character pattern. *)
Fixpoint remove (c : ascii) (s : string) : string :=
  match s with
  | EmptyString => EmptyString
  | String a s' => if Ascii.eqb a c then remove c s' else String a (remove c s')
  end.

(** [s.split(c)] for a one-character separator. *)
Fixpoint split (c : ascii) (s : string) : list string :=
  match s with
  | EmptyString => [EmptyString]
  | String a s' =>
      if Ascii.eqb a c then EmptyString :: split c s'
      else match split c s' with
           | h :: t => String a h :: t
           | [] => [String a EmptyString]
           end
  end.

(** ["{0}".format(n)] and ["{0:d}".format(n)] on a non-negative integer. *)
Definition format_d (n : N) : string :=
  DecimalString.NilZero.string_of_uint (N.to_uint n).

(** ["{0:x}".format(n)] on a non-negative integer. *)
Definition format_x (n : N) : string :=
  HexadecimalString.NilZero.string_of_uint (N.to_hex_uint n).

End PyStr.

(** ** Control effects: exceptions and the unbounded loop *)

Inductive exn : Type :=
| InvalidAddressException
| IndexError.

#[global] Instance exn_eq_dec : EqDecision exn.
Proof. solve_decision. Defined.

(** What running a piece of the source gives: a value, a propagating
    exception, or no answer within the number of loop iterations the model
    was allowed ([OutOfFuel]; the source itself has no such budget). *)
Inductive outcome (A : Type) : Type :=
| Returns (a : A)
| Raises (e : exn)
| OutOfFuel.

Arguments Returns {A} a.
Arguments Raises {A} e.
Arguments OutOfFuel {A}.

#[global] Instance outcome_ret : MRet outcome := fun A a => Returns a.

#[global] Instance outcome_bind : MBind outcome := fun A B k m =>
  match m with
  | Returns a => k a
  | Raises e => Raises e
  | OutOfFuel => OutOfFuel
  end.

(** [try: body except InvalidAddressException: handler]. *)
Definition try_except_InvalidAddress {A : Type} (body handler : outcome A) : outcome A :=
  match body with
  | Raises InvalidAddressException => handler
  | other => other
  end.

(** A field read through the typed-object layer: the value, or
    [InvalidAddressException]. *)
Definition read {A : Type} (r : option A) : outcome A :=
  match r with
  | Some a => Returns a
  | None => Raises InvalidAddressException
  end.

(** [l[i]]. *)
Definition index {A : Type} (l : list A) (i : nat) : outcome A :=
  match l !! i with
  | Some a => Returns a
  | None => Raises IndexError
  end.

(** ** The typed memory view *)

(** References are compared by address. *)
Definition addr : Type := N.

(** A pointer object: its value and the [vol.type_name] of its type. *)
Record typed_ptr : Type := TypedPtr {
  ptr_value : addr;
  ptr_type_name : string
}.

(** The field reads and helper methods of the extension classes that the
    source calls. [None] stands for [InvalidAddressException]. *)
Record View : Type := {
  (* dentry *)
  path : addr -> option string;
  d_parent : addr -> option addr;
  d_inode : addr -> option addr;
  d_op : addr -> option addr;
  (* inode *)
  i_ino : addr -> option N;
  (* dentry_operations *)
  has_member_d_dname : addr -> option bool;
  d_dname : addr -> option typed_ptr;
  (* vfsmount *)
  get_mnt_root : addr -> option addr;
  get_mnt_parent : addr -> option addr;
  get_mnt_mountpoint : addr -> option addr;
  (* file *)
  get_dentry : addr -> option addr;
  get_vfsmnt : addr -> option addr;
  (* task.fs *)
  get_root_dentry : addr -> option addr;
  get_root_mnt : addr -> option addr;
  (* task.files *)
  get_fds : addr -> option addr;
  get_max_fds : addr -> option Z;
  (* objects.utility.array_of_pointers(base, count, subtype) *)
  array_of_pointers : addr -> Z -> string -> option (list addr)
}.

(** [context.symbol_space.get_symbols_by_location(address, table_name)]. *)
Record ContextInterface : Type := {
  get_symbols_by_location : addr -> option string -> list string
}.

(** [constants.BANG]. *)
Definition BANG : ascii := "!"%char.

(** The table name in front of the [!] of the pointer's type name:
    [symbol_table_arr[0]] when the split has two parts, [None] otherwise. *)
Definition symbol_table_of (sym_addr : typed_ptr) : option string :=
  let symbol_table_arr := PyStr.split BANG (ptr_type_name sym_addr) in
  if decide (length symbol_table_arr = 2) then symbol_table_arr !! 0%nat else None.

(** How a pass through a loop body ends. *)
Inductive control : Type :=
| Break
| Continue (dentry vfsmnt : addr).

(** ** LinuxUtilities *)

Section LinuxUtilities.

Variable V : View.

(** [dentry == vfsmnt.get_mnt_root() or dentry == dentry.d_parent]; the
    second operand is read only when the first is false. *)
Definition at_mount_boundary (dentry vfsmnt : addr) : outcome bool :=
  mnt_root ← read (get_mnt_root V vfsmnt);
  if decide (dentry = mnt_root) then Returns true
  else parent ← read (d_parent V dentry);
       Returns (bool_decide (dentry = parent)).

(** One pass through the body of the [while] loop of [_do_get_path]:
    the updated [ret_path], and whether the pass ends in [break] or goes
    back to the loop test with new [dentry] and [vfsmnt]. *)
Definition loop_body (ret_path : list string) (dentry vfsmnt : addr)
  : outcome (list string * control) :=
  dname ← read (path V dentry);
  if decide (dname = "") then Returns (ret_path, Break)
  else
    let ret_path := PyStr.strip "/" dname :: ret_path in
    boundary ← at_mount_boundary dentry vfsmnt;
    if boundary : bool then
      mnt_parent ← read (get_mnt_parent V vfsmnt);
      if decide (mnt_parent = vfsmnt) then Returns (ret_path, Break)
      else
        mountpoint ← read (get_mnt_mountpoint V vfsmnt);
        mnt_parent ← read (get_mnt_parent V vfsmnt);
        Returns (ret_path, Continue mountpoint mnt_parent)
    else
      parent ← read (d_parent V dentry);
      Returns (ret_path, Continue parent vfsmnt).

(** The [while] loop of [_do_get_path], run for at most [fuel] tests of its
    condition. It returns [ret_path] and the [dentry] variable as they
    stand when the loop is left. *)
Fixpoint walk_loop (fuel : nat) (rdentry rmnt : addr)
         (ret_path : list string) (dentry vfsmnt : addr)
  : outcome (list string * addr) :=
  match fuel with
  | O => OutOfFuel
  | S fuel' =>
      if decide (dentry <> rdentry \/ vfsmnt <> rmnt) then
        '(ret_path', next) ← loop_body ret_path dentry vfsmnt;
        match next with
        | Break => Returns (ret_path', dentry)
        | Continue dentry' vfsmnt' =>
            walk_loop fuel' rdentry rmnt ret_path' dentry' vfsmnt'
        end
      else Returns (ret_path, dentry)
  end.

(** [dentry.d_inode.i_ino] under [try ... except InvalidAddressException: ino = 0]. *)
Definition ino_or_zero (dentry : addr) : outcome N :=
  try_except_InvalidAddress
    (inode ← read (d_inode V dentry); read (i_ino V inode))
    (Returns 0%N).

(** ['/'.join([str(p) for p in ret_path if p != ""])]. *)
Definition joined (ret_path : list string) : string :=
  PyStr.join "/" (filter (fun p : string => p <> "") ret_path).

(** The part of [_do_get_path] after the loop. *)
Definition post_process (ret_path : list string) (dentry : addr) : outcome string :=
  match ret_path with
  | [] => Returns ""
  | _ =>
      let ret_val := joined ret_path in
      if PyStr.startswith "socket:" ret_val || PyStr.startswith "pipe:" ret_val then
        if negb (PyStr.contains "]" ret_val) then
          ino ← ino_or_zero dentry;
          Returns (PyStr.drop_last ret_val ++ ":[" ++ PyStr.format_d ino ++ "]")
        else Returns (PyStr.remove "/" ret_val)
      else if decide (ret_val <> "inotify") then Returns ("/" ++ ret_val)
      else Returns ret_val
  end.

Definition _do_get_path (fuel : nat) (rdentry rmnt dentry vfsmnt : addr) : outcome string :=
  '(ret_path, dentry) ← walk_loop fuel rdentry rmnt [] dentry vfsmnt;
  post_process ret_path dentry.

Definition _get_path_file (fuel : nat) (task filp : addr) : outcome string :=
  rdentry ← read (get_root_dentry V task);
  rmnt ← read (get_root_mnt V task);
  dentry ← read (get_dentry V filp);
  vfsmnt ← read (get_vfsmnt V filp);
  _do_get_path fuel rdentry rmnt dentry vfsmnt.

(** The symbol name that [_get_new_sock_pipe_path] maps to a prefix. *)
Definition pre_name_of (fuel : nat) (task filp : addr) (sym : string) : outcome string :=
  if decide (sym = "sockfs_dname") then Returns "socket"
  else if decide (sym = "anon_inodefs_dname") then Returns "anon_inode"
  else if decide (sym = "pipefs_dname") then Returns "pipe"
  else if decide (sym = "simple_dname") then _get_path_file fuel task filp
  else Returns ("<unsupported d_op symbol: " ++ sym ++ ">").

Definition _get_new_sock_pipe_path (fuel : nat) (context : ContextInterface)
           (task filp : addr) : outcome string :=
  dentry ← read (get_dentry V filp);
  ops ← read (d_op V dentry);
  sym_addr ← read (d_dname V ops);
  let symbol_table := symbol_table_of sym_addr in
  let symbs := get_symbols_by_location context (ptr_value sym_addr) symbol_table in
  if decide (length symbs = 1) then
    symb ← index symbs 0;
    sym ← index (PyStr.split BANG symb) 1;
    pre_name ← pre_name_of fuel task filp sym;
    inode ← read (d_inode V dentry);
    ino ← read (i_ino V inode);
    Returns (pre_name ++ ":[" ++ PyStr.format_d ino ++ "]")
  else
    Returns ("<invalid d_dname pointer> " ++ PyStr.format_x (ptr_value sym_addr)).

(** [dentry.d_op and dentry.d_op.has_member("d_dname") and dentry.d_op.d_dname]
    inside [try ... except InvalidAddressException: dname_is_valid = False].
    Each conjunct reads [dentry.d_op] again. *)
Definition dname_is_valid (dentry : addr) : outcome bool :=
  try_except_InvalidAddress
    (ops ← read (d_op V dentry);
     if decide (ops <> 0%N) then
       ops ← read (d_op V dentry);
       has ← read (has_member_d_dname V ops);
       if has : bool then
         ops ← read (d_op V dentry);
         sym_addr ← read (d_dname V ops);
         Returns (bool_decide (ptr_value sym_addr <> 0%N))
       else Returns false
     else Returns false)
    (Returns false).

Definition path_for_file (fuel : nat) (context : ContextInterface)
           (task filp : addr) : outcome string :=
  match read (get_dentry V filp) with
  | Raises InvalidAddressException => Returns ""
  | Raises e => Raises e
  | OutOfFuel => OutOfFuel
  | Returns dentry =>
      if decide (dentry = 0%N) then Returns ""
      else
        valid ← dname_is_valid dentry;
        if valid : bool then _get_new_sock_pipe_path fuel context task filp
        else _get_path_file fuel task filp
  end.

End LinuxUtilities.

(** ** The descriptor generator *)

(** What a consumer of a Python generator observes: the items in the order
    they are yielded, and how the generator ends. *)
Inductive gen (A : Type) : Type :=
| Yield (a : A) (rest : gen A)
| StopIteration
| Propagates (e : exn)
| Hangs.

Arguments Yield {A} a rest.
Arguments StopIteration {A}.
Arguments Propagates {A} e.
Arguments Hangs {A}.

(** Run a computation, then go on generating. *)
Definition gen_bind {A B : Type} (m : outcome A) (k : A -> gen B) : gen B :=
  match m with
  | Returns a => k a
  | Raises e => Propagates e
  | OutOfFuel => Hangs
  end.

(** The generator that yields the items of a list and stops. *)
Fixpoint gen_of_list {A : Type} (l : list A) : gen A :=
  match l with
  | [] => StopIteration
  | a :: l' => Yield a (gen_of_list l')
  end.

(** The items a generator yields before it ends. *)
Fixpoint yielded {A : Type} (g : gen A) : list A :=
  match g with
  | Yield a rest => a :: yielded rest
  | _ => []
  end.

Section Enumerator.

Variable V : View.

(** [for (fd_num, filp) in enumerate(fds)], entered with the counter at
    [fd_num]. *)
Fixpoint for_fds (fuel : nat) (context : ContextInterface) (task : addr)
         (fd_num : nat) (fds : list addr) : gen (nat * addr * string) :=
  match fds with
  | [] => StopIteration
  | filp :: fds' =>
      if decide (filp <> 0%N) then
        gen_bind (path_for_file V fuel context task filp) (fun full_path =>
          Yield (fd_num, filp, full_path)
                (for_fds fuel context task (S fd_num) fds'))
      else for_fds fuel context task (S fd_num) fds'
  end.

Definition files_descriptors_for_process (fuel : nat) (context : ContextInterface)
           (symbol_table : string) (task : addr) : gen (nat * addr * string) :=
  gen_bind (read (get_fds V task)) (fun fd_table =>
    if decide (fd_table = 0%N) then StopIteration
    else
      gen_bind (read (get_max_fds V task)) (fun max_fds =>
        if decide (max_fds > 500000)%Z then StopIteration
        else
          let file_type := symbol_table ++ String BANG "file" in
          gen_bind (read (array_of_pointers V fd_table max_fds file_type)) (fun fds =>
            for_fds fuel context task 0 fds))).

End Enumerator.

(** ** A concrete snapshot: address-keyed tables *)

(** Entries, mounts, inodes, files and tasks live in tables keyed by address;
    reading through an address that no table maps is an invalid reference. *)
Module Arena.

Record dentry_t : Type := Dentry {
  name : string;
  parent : addr;
  inode : addr;
  operations : addr
}.

Record mount_t : Type := Mount {
  mnt_root : addr;
  mnt_parent : addr;
  mnt_mountpoint : addr
}.

Record dentry_operations_t : Type := Operations {
  declares_d_dname : bool;
  dname : typed_ptr
}.

Record file_t : Type := File {
  f_dentry : addr;
  f_vfsmnt : addr
}.

Record task_t : Type := Task {
  root_dentry : addr;
  root_mnt : addr;
  fdt : addr;
  max_fds : Z
}.

Record snapshot : Type := Snapshot {
  dentries : gmap addr dentry_t;
  mounts : gmap addr mount_t;
  inodes : gmap addr N;
  dentry_operations : gmap addr dentry_operations_t;
  files : gmap addr file_t;
  tasks : gmap addr task_t;
  fd_arrays : gmap addr (list addr)
}.

Definition view (s : snapshot) : View := {|
  path a := name <$> dentries s !! a;
  d_parent a := parent <$> dentries s !! a;
  d_inode a := inode <$> dentries s !! a;
  d_op a := operations <$> dentries s !! a;
  i_ino a := inodes s !! a;
  has_member_d_dname a := declares_d_dname <$> dentry_operations s !! a;
  d_dname a := dname <$> dentry_operations s !! a;
  get_mnt_root a := mnt_root <$> mounts s !! a;
  get_mnt_parent a := mnt_parent <$> mounts s !! a;
  get_mnt_mountpoint a := mnt_mountpoint <$> mounts s !! a;
  get_dentry a := f_dentry <$> files s !! a;
  get_vfsmnt a := f_vfsmnt <$> files s !! a;
  get_root_dentry a := root_dentry <$> tasks s !! a;
  get_root_mnt a := root_mnt <$> tasks s !! a;
  get_fds a := fdt <$> tasks s !! a;
  get_max_fds a := max_fds <$> tasks s !! a;
  array_of_pointers base count _ := take (Z.to_nat count) <$> fd_arrays s !! base
|}.

(** A symbol space given by the symbols located at each address. *)
Definition symbol_space (symbols : gmap addr (list string)) : ContextInterface := {|
  get_symbols_by_location a _ := default [] (symbols !! a)
|}.

End Arena.

(** ** Sample snapshots *)

Module Samples.
Import Arena.
Local Open Scope N_scope.

(** Mount 50 is the global root mount, rooted at entry 1; mount 51 is
    rooted at entry 20 and mounted on [/home/alice] (entry 3).

    Below [/] (1): [home] (2) > [alice] (3) > [notes.txt] (4); an entry
    [inotify] (5); an entry [socket:1234] (6); an entry whose name has been
    wiped (7) holding [report.txt] (8); [shm] (9), whose operations table
    400 names the generic display routine; [bad] (10), whose operations
    table 401 points at no symbol. In mount 51: [data] (21) below its
    root (20). *)
Definition tree_dentries : list (addr * dentry_t) :=
  [ (1, Dentry "/" 1 11 0);
    (2, Dentry "home" 1 12 0);
    (3, Dentry "alice" 2 13 0);
    (4, Dentry "notes.txt" 3 14 0);
    (5, Dentry "inotify" 1 15 0);
    (6, Dentry "socket:1234" 1 16 0);
    (7, Dentry "" 1 17 0);
    (8, Dentry "report.txt" 7 18 0);
    (9, Dentry "shm" 1 19 400);
    (10, Dentry "bad" 1 20 401);
    (20, Dentry "/" 20 30 0);
    (21, Dentry "data" 20 31 0) ].

Definition tree_mounts : list (addr * mount_t) :=
  [ (50, Mount 1 50 1); (51, Mount 20 50 3) ].

(** Task 100 is rooted at [/]; task 101 is rooted at [/home] and has no
    descriptor table; task 102 declares 600000 descriptors. Only mount 52
    of file 207 is unmapped. *)
Definition tree : snapshot := {|
  dentries := list_to_map tree_dentries;
  mounts := list_to_map tree_mounts;
  inodes := list_to_map
    [ (11, 2); (12, 1001); (13, 1002); (14, 1003); (15, 1004); (16, 777);
      (17, 1005); (18, 1006); (19, 4242); (20, 4243); (30, 2); (31, 5001) ];
  dentry_operations := list_to_map
    [ (400, Operations true (TypedPtr 0xffffffff81234560 "linux!pointer"));
      (401, Operations true (TypedPtr 0xdeadbeef "linux!pointer")) ];
  files := list_to_map
    [ (201, File 1 50); (204, File 4 50); (205, File 5 50); (206, File 6 50);
      (207, File 2 52); (208, File 8 50); (209, File 9 50); (210, File 10 50);
      (221, File 21 51) ];
  tasks := list_to_map
    [ (100, Task 1 50 300 10%Z); (101, Task 2 50 0 0%Z);
      (102, Task 1 50 300 600000%Z) ];
  fd_arrays := list_to_map
    [ (300, [0; 204; 0; 0; 205; 0; 0; 206; 0; 0]) ]
|}.

Definition kernel_symbols : ContextInterface :=
  symbol_space (list_to_map [ (0xffffffff81234560, ["linux!simple_dname"]) ]).

(** The number of a walk state that every pass of the loop over [tree]
    lowers. *)
Definition tree_rank (dentry vfsmnt : addr) : nat := N.to_nat (dentry + 100 * vfsmnt).

(** Corrupted parent links: entries 2 and 3 are each other's parent. *)
Definition cyclic : snapshot := {|
  dentries := list_to_map
    [ (1, Dentry "/" 1 11 0); (2, Dentry "a" 3 12 0); (3, Dentry "b" 2 13 0) ];
  mounts := list_to_map [ (50, Mount 1 50 1) ];
  inodes := ∅;
  dentry_operations := ∅;
  files := list_to_map [ (202, File 2 50) ];
  tasks := list_to_map [ (100, Task 1 50 0 0%Z) ];
  fd_arrays := ∅
|}.

End Samples.

(** ** Well-formed chains of entries *)

(** A stored name that is a path segment: not empty, no ['/'] at either end. *)
Definition segment (n : string) : Prop := n <> "" /\ PyStr.strip "/" n = n.

(** [below V rdentry vfsmnt dentry names]: [dentry] lies [length names]
    parent links below [rdentry] inside the mount [vfsmnt]; [names] are the
    stored names met on the way up, leaf first. No entry on the way is the
    mount's root or its own parent, so no mount boundary is met. *)
Fixpoint below (V : View) (rdentry vfsmnt dentry : addr) (names : list string) : Prop :=
  match names with
  | [] => dentry = rdentry
  | n :: names' =>
      dentry <> rdentry /\
      path V dentry = Some n /\
      (exists mnt_root, get_mnt_root V vfsmnt = Some mnt_root /\ dentry <> mnt_root) /\
      exists parent, d_parent V dentry = Some parent /\ dentry <> parent /\
                     below V rdentry vfsmnt parent names'
  end.

(** [_do_get_path] picked up at the loop test, with [ret_path] already
    holding the segments gathered so far. [_do_get_path] is the case of an
    empty [ret_path]. *)
Definition walk_from (V : View) (fuel : nat) (rdentry rmnt : addr)
           (ret_path : list string) (dentry vfsmnt : addr) : outcome string :=
  '(ret_path, dentry) ← walk_loop V fuel rdentry rmnt ret_path dentry vfsmnt;
  post_process V ret_path dentry.

(** [climb V rdentry rmnt stop vfsmnt dentry names]: [dentry] lies
    [length names] parent links below [stop] inside the mount [vfsmnt];
    [names] are the stored names met on the way up, leaf first. On the way the
    loop test of the walk rooted at ([rdentry], [rmnt]) holds, and no entry is
    the mount's root or its own parent. [below] is the case where [stop] is
    the root entry and [vfsmnt] the root mount. *)
Fixpoint climb (V : View) (rdentry rmnt stop vfsmnt dentry : addr) (names : list string)
  : Prop :=
  match names with
  | [] => dentry = stop
  | n :: names' =>
      (dentry <> rdentry \/ vfsmnt <> rmnt) /\
      path V dentry = Some n /\
      (exists mnt_root, get_mnt_root V vfsmnt = Some mnt_root /\ dentry <> mnt_root) /\
      exists parent, d_parent V dentry = Some parent /\ dentry <> parent /\
                     climb V rdentry rmnt stop vfsmnt parent names'
  end.

(** The generator that yields the items of a list and then goes on as [g]. *)
Definition gen_then {A : Type} (l : list A) (g : gen A) : gen A := foldr Yield g l.

(** A second sample: sockets, pipes and a descriptor table *)

Module Desk.
Import Arena.
Local Open Scope N_scope.

(** One mount (50) rooted at entry 1, holding [/tmp/log] (1 > 2 > 3) and an
    entry [cache] (4) whose parent link points at unreadable memory (99).
    Entries 30 to 35 belong to no directory: a socket (operations 500), a pipe
    (501), an anonymous inode (502), an entry whose display routine is not one
    the code knows (503), one whose symbol carries no table name (504), and a
    socket whose inode (45) cannot be read. *)
Definition snap : snapshot := {|
  dentries := list_to_map
    [ (1, Dentry "/" 1 11 0); (2, Dentry "tmp" 1 12 0); (3, Dentry "log" 2 13 0);
      (4, Dentry "cache" 99 14 0);
      (30, Dentry "" 30 40 500); (31, Dentry "" 31 41 501); (32, Dentry "" 32 42 502);
      (33, Dentry "" 33 43 503); (34, Dentry "" 34 44 504); (35, Dentry "" 35 45 500) ];
  mounts := list_to_map [ (50, Mount 1 50 1) ];
  inodes := list_to_map
    [ (11, 2); (12, 20); (13, 21); (40, 31337); (41, 8080); (42, 99); (43, 7); (44, 8) ];
  dentry_operations := list_to_map
    [ (500, Operations true (TypedPtr 0x1000 "linux!pointer"));
      (501, Operations true (TypedPtr 0x2000 "linux!pointer"));
      (502, Operations true (TypedPtr 0x3000 "linux!pointer"));
      (503, Operations true (TypedPtr 0x4000 "linux!pointer"));
      (504, Operations true (TypedPtr 0x5000 "linux!pointer")) ];
  files := list_to_map
    [ (203, File 3 50); (204, File 4 50); (230, File 30 50); (231, File 31 50); (232, File 32 50);
      (233, File 33 50); (234, File 34 50); (235, File 35 50) ];
  tasks := list_to_map [ (100, Task 1 50 300 4%Z) ];
  fd_arrays := list_to_map [ (300, [203; 235; 0; 230]) ]
|}.

Definition symbols : ContextInterface :=
  symbol_space (list_to_map
    [ (0x1000, ["linux!sockfs_dname"]); (0x2000, ["linux!pipefs_dname"]);
      (0x3000, ["linux!anon_inodefs_dname"]); (0x4000, ["linux!ns_dname"]);
      (0x5000, ["sockfs_dname"]) ]).

End Desk.

(** A third sample: a directory mounted on itself *)

Module BindMount.
Import Arena.
Local Open Scope N_scope.

(** Mount 50 is the global root mount, rooted at [/] (1). The entry [pipe:x]
    (2, inode number 4321) is the root of mount 51, and mount 51 is mounted
    on that same entry in mount 50. *)
Definition snap : snapshot := {|
  dentries := list_to_map [ (1, Dentry "/" 1 11 0); (2, Dentry "pipe:x" 1 12 0) ];
  mounts := list_to_map [ (50, Mount 1 50 1); (51, Mount 2 50 2) ];
  inodes := list_to_map [ (11, 2); (12, 4321) ];
  dentry_operations := ∅;
  files := list_to_map [ (202, File 2 51) ];
  tasks := list_to_map [ (100, Task 2 50 0 0%Z) ];
  fd_arrays := ∅
|}.

End BindMount.

(** ** What the generator is expected to yield *)

(** Python's [enumerate(l, start)]. *)
Fixpoint enumerate_from {A : Type} (start : nat) (l : list A) : list (nat * A) :=
  match l with
  | [] => []
  | a :: l' => (start, a) :: enumerate_from (S start) l'
  end.

(** One triple (index, file reference, path) for each slot that is not null,
    in the order of the slots. *)
Definition open_descriptors (path_of : addr -> string) (start : nat) (fds : list addr)
  : list (nat * addr * string) :=
  (fun slot : nat * addr => (slot.1, slot.2, path_of slot.2))
    <$> filter (fun slot : nat * addr => slot.2 <> 0%N) (enumerate_from start fds).

(** ** Basic facts *)

Example tree_notes :
  _get_path_file (Arena.view Samples.tree) 10 100%N 204%N = Returns "/home/alice/notes.txt".
Proof. vm_compute. reflexivity. Qed.

Example tree_across_mount :
  _get_path_file (Arena.view Samples.tree) 10 100%N 221%N = Returns "/home/alice/data".
Proof. vm_compute. reflexivity. Qed.

(** *** The loop, one pass at a time *)

Section WalkFacts.

Variable V : View.

Lemma walk_loop_exit fuel rdentry rmnt ret_path :
  walk_loop V (S fuel) rdentry rmnt ret_path rdentry rmnt = Returns (ret_path, rdentry).
Proof.
  simpl. destruct (decide _) as [[H | H] | _]; [congruence | congruence | reflexivity].
Qed.

Lemma walk_loop_break fuel rdentry rmnt ret_path dentry vfsmnt ret_path' :
  dentry <> rdentry \/ vfsmnt <> rmnt ->
  loop_body V ret_path dentry vfsmnt = Returns (ret_path', Break) ->
  walk_loop V (S fuel) rdentry rmnt ret_path dentry vfsmnt = Returns (ret_path', dentry).
Proof.
  intros Hc Hb. simpl. destruct (decide _) as [_ | Hn]; [| tauto].
  rewrite Hb. reflexivity.
Qed.

Lemma walk_loop_continue fuel rdentry rmnt ret_path dentry vfsmnt ret_path' dentry' vfsmnt' :
  dentry <> rdentry \/ vfsmnt <> rmnt ->
  loop_body V ret_path dentry vfsmnt = Returns (ret_path', Continue dentry' vfsmnt') ->
  walk_loop V (S fuel) rdentry rmnt ret_path dentry vfsmnt
  = walk_loop V fuel rdentry rmnt ret_path' dentry' vfsmnt'.
Proof.
  intros Hc Hb. simpl. destruct (decide _) as [_ | Hn]; [| tauto].
  rewrite Hb. reflexivity.
Qed.

Lemma walk_loop_raise fuel rdentry rmnt ret_path dentry vfsmnt e :
  dentry <> rdentry \/ vfsmnt <> rmnt ->
  loop_body V ret_path dentry vfsmnt = Raises e ->
  walk_loop V (S fuel) rdentry rmnt ret_path dentry vfsmnt = Raises e.
Proof.
  intros Hc Hb. simpl. destruct (decide _) as [_ | Hn]; [| tauto].
  rewrite Hb. reflexivity.
Qed.

(** The body of the loop has no loop of its own. *)
Lemma loop_body_finishes ret_path dentry vfsmnt :
  loop_body V ret_path dentry vfsmnt <> OutOfFuel.
Proof.
  unfold loop_body, at_mount_boundary.
  destruct (path V dentry) as [dname |]; simpl; [| discriminate].
  destruct (decide (dname = "")); [discriminate |].
  destruct (get_mnt_root V vfsmnt) as [mnt_root |]; simpl; [| discriminate].
  destruct (decide (dentry = mnt_root)); simpl.
  - destruct (get_mnt_parent V vfsmnt) as [mp |]; simpl; [| discriminate].
    destruct (decide (mp = vfsmnt)); [discriminate |].
    destruct (get_mnt_mountpoint V vfsmnt); simpl; discriminate.
  - destruct (d_parent V dentry) as [p |]; simpl; [| discriminate].
    destruct (bool_decide (dentry = p)); simpl; [| discriminate].
    destruct (get_mnt_parent V vfsmnt) as [mp |]; simpl; [| discriminate].
    destruct (decide (mp = vfsmnt)); [discriminate |].
    destruct (get_mnt_mountpoint V vfsmnt); simpl; discriminate.
Qed.

(** An answer obtained within some budget is the answer under every
    larger budget. *)
Lemma walk_loop_mono fuel : forall fuel' rdentry rmnt ret_path dentry vfsmnt,
  fuel <= fuel' ->
  walk_loop V fuel rdentry rmnt ret_path dentry vfsmnt <> OutOfFuel ->
  walk_loop V fuel' rdentry rmnt ret_path dentry vfsmnt
  = walk_loop V fuel rdentry rmnt ret_path dentry vfsmnt.
Proof.
  induction fuel as [| fuel IH]; intros fuel' rd rm acc d v Hle Hne.
  - simpl in Hne. congruence.
  - destruct fuel' as [| fuel']; [lia |].
    simpl in *. destruct (decide _); [| reflexivity].
    destruct (loop_body V acc d v) as [[acc' [| d' v']] | e |]; simpl in *;
      try reflexivity.
    apply IH; [lia | assumption].
Qed.

Lemma ino_or_zero_returns dentry :
  exists ino, ino_or_zero V dentry = Returns ino.
Proof.
  unfold ino_or_zero.
  destruct (d_inode V dentry) as [inode |]; simpl; [| eauto].
  destruct (i_ino V inode) as [ino |]; simpl; eauto.
Qed.

Lemma post_process_returns ret_path dentry :
  exists s, post_process V ret_path dentry = Returns s.
Proof.
  unfold post_process. destruct ret_path as [| p ret_path]; [eauto |].
  destruct (_ || _).
  - destruct (negb _); [| eauto].
    destruct (ino_or_zero_returns dentry) as [ino ->]. simpl. eauto.
  - destruct (decide _); eauto.
Qed.

End WalkFacts.

(** *** Strings *)

Lemma startswith_shape (p s : string) :
  PyStr.startswith p s = true -> exists r, s = p ++ r.
Proof.
  unfold PyStr.startswith. revert s.
  induction p as [| a p IH]; intros s H.
  - exists s. reflexivity.
  - destruct s as [| b s]; simpl in H; [discriminate |].
    destruct (ascii_dec a b) as [-> | _]; [| discriminate].
    destruct (IH s H) as [r ->]. exists r. reflexivity.
Qed.

(** A value with one of the two special prefixes has at least two characters
    and does not begin with ['/']. *)
Lemma special_prefix_shape (s : string) :
  PyStr.startswith "socket:" s || PyStr.startswith "pipe:" s = true ->
  exists c c' r, s = String c (String c' r) /\ c <> "/"%char.
Proof.
  intros H. apply orb_true_iff in H as [H | H];
    apply startswith_shape in H as [r ->]; simpl;
    do 3 eexists; (split; [reflexivity | intros E; discriminate E]).
Qed.

Lemma append_cons (a : ascii) (s t : string) : String a s ++ t = String a (s ++ t).
Proof. reflexivity. Qed.

Lemma append_empty_inv (s t : string) : s ++ t = "" -> s = "" /\ t = "".
Proof. destruct s; simpl; [auto | discriminate]. Qed.

Lemma append_length (s t : string) :
  String.length (s ++ t) = String.length s + String.length t.
Proof. induction s as [| a s IH]; simpl; [reflexivity | rewrite IH; reflexivity]. Qed.

Lemma append_grows (s t : string) : t <> "" -> s ++ t <> s.
Proof.
  intros Ht E. apply (f_equal String.length) in E. rewrite append_length in E.
  destruct t; [congruence | simpl in E; lia].
Qed.

Lemma join_empty_inv (sep : string) (l : list string) :
  Forall (fun p => p <> "") l -> PyStr.join sep l = "" -> l = [].
Proof.
  intros Hl. destruct l as [| p l]; [reflexivity |].
  apply Forall_cons in Hl as [Hp _]. unfold PyStr.join. simpl.
  destruct l; intros E; [congruence |].
  apply append_empty_inv in E as [E _]. congruence.
Qed.

Lemma filter_nonempty_id (l : list string) :
  Forall (fun p => p <> "") l -> filter (fun p : string => p <> "") l = l.
Proof.
  induction 1 as [| p l Hp _ IH]; [reflexivity |].
  rewrite filter_cons_True by assumption. rewrite IH. reflexivity.
Qed.

Lemma filter_nonempty_nil (l : list string) :
  filter (fun p : string => p <> "") l = [] -> Forall (fun p => p = "") l.
Proof.
  induction l as [| p l IH]; intros H; [constructor |].
  destruct (decide (p = "")) as [-> | Hp].
  - rewrite filter_cons_False in H by auto. constructor; auto.
  - rewrite filter_cons_True in H by assumption. discriminate.
Qed.

Lemma remove_removes (c : ascii) (s : string) :
  PyStr.contains c (PyStr.remove c s) = false.
Proof.
  induction s as [| a s IH]; simpl; [reflexivity |].
  destruct (Ascii.eqb a c) eqn:E; [assumption |].
  simpl. rewrite E. assumption.
Qed.

(** *** The tail of [_do_get_path] *)

Section PostProcessFacts.

Variable V : View.

Lemma joined_empty_inv ret_path :
  joined ret_path = "" -> Forall (fun p => p = "") ret_path.
Proof.
  unfold joined. intros E. apply filter_nonempty_nil.
  apply (join_empty_inv "/"); [| assumption].
  apply Forall_forall. intros p Hp. apply list_elem_of_filter in Hp. tauto.
Qed.

(** The tail gives the empty string exactly when no segment was gathered. *)
Lemma post_process_empty_iff ret_path dentry :
  post_process V ret_path dentry = Returns "" <-> ret_path = [].
Proof.
  split; [| intros ->; reflexivity].
  unfold post_process. destruct ret_path as [| p ret_path]; [reflexivity |].
  set (ret_val := joined (p :: ret_path)). intros H. exfalso.
  destruct (_ || _) eqn:Hsp.
  - apply special_prefix_shape in Hsp as (c & c' & r & E & Hc).
    rewrite E in H. destruct (negb _).
    + destruct (ino_or_zero_returns V dentry) as [ino Hi]. rewrite Hi in H.
      simpl in H. destruct r; discriminate.
    + simpl in H. apply Ascii.eqb_neq in Hc. rewrite Hc in H. discriminate.
  - destruct (decide _) as [Hn | Hn]; [discriminate |].
    apply dec_stable in Hn. rewrite Hn in H. discriminate.
Qed.

(** The tail gives ["/"] only from segments that are all empty. *)
Lemma post_process_slash_inv ret_path dentry :
  post_process V ret_path dentry = Returns "/" ->
  ret_path <> [] /\ Forall (fun p => p = "") ret_path.
Proof.
  unfold post_process. destruct ret_path as [| p ret_path]; [discriminate |].
  set (ret_val := joined (p :: ret_path)). intros H.
  split; [discriminate |]. apply joined_empty_inv. fold ret_val.
  destruct (_ || _) eqn:Hsp.
  - exfalso. apply special_prefix_shape in Hsp as (c & c' & r & E & Hc).
    rewrite E in H. destruct (negb _).
    + destruct (ino_or_zero_returns V dentry) as [ino Hi]. rewrite Hi in H.
      simpl in H. destruct r; simpl in H; rewrite append_cons in H; congruence.
    + simpl in H. rewrite (proj2 (Ascii.eqb_neq _ _) Hc) in H. congruence.
  - destruct (decide _) as [Hn | Hn].
    + assert (E : "/" ++ ret_val = "/") by congruence.
      change (String "/" ret_val = String "/" "") in E. congruence.
    + apply dec_stable in Hn. rewrite Hn in H. discriminate.
Qed.

End PostProcessFacts.

(** ** The walk and the filesystem root *)

Local Open Scope N_scope.

(** C7, the claim as written fails: task 101 is rooted at [/home] and file
    201 is open on the entry named ["/"]; the walk gathers the one segment
    [""] and returns ["/"]. *)
Lemma walk_returns_slash :
  _do_get_path (Arena.view Samples.tree) 10 2 50 1 50 = Returns "/".
Proof. vm_compute. reflexivity. Qed.

(** C7, amended: whenever no segment is gathered, and so when the start pair
    is the root pair, which leaves the loop at its first test, the walk returns
    the empty string; it returns ["/"] only when at least one segment was
    gathered and every gathered segment is empty once its ['/'] are stripped. *)
Theorem walk_empty_without_segments (V : View) (fuel : nat) (rdentry rmnt dentry vfsmnt : addr) :
  _do_get_path V (S fuel) rdentry rmnt rdentry rmnt = Returns "" /\
  (forall dentry',
      walk_loop V fuel rdentry rmnt [] dentry vfsmnt = Returns ([], dentry') ->
      _do_get_path V fuel rdentry rmnt dentry vfsmnt = Returns "") /\
  (_do_get_path V fuel rdentry rmnt dentry vfsmnt = Returns "/" ->
   exists ret_path dentry',
     walk_loop V fuel rdentry rmnt [] dentry vfsmnt = Returns (ret_path, dentry') /\
     ret_path <> [] /\ Forall (fun p => p = "") ret_path).
Proof.
  unfold _do_get_path. repeat split.
  - rewrite walk_loop_exit. reflexivity.
  - intros dentry' ->. reflexivity.
  - destruct (walk_loop V fuel rdentry rmnt [] dentry vfsmnt)
      as [[ret_path dentry'] | e |]; simpl; [| discriminate | discriminate].
    intros H. apply post_process_slash_inv in H. eauto.
Qed.

Lemma walk_empty_without_segments_witness :
  exists ret_path dentry',
    walk_loop (Arena.view Samples.tree) 10 2 50 [] 1 50 = Returns (ret_path, dentry') /\
    ret_path <> [] /\ Forall (fun p => p = "") ret_path.
Proof.
  apply (proj2 (proj2 (walk_empty_without_segments (Arena.view Samples.tree) 10 2 50 1 50))).
  vm_compute. reflexivity.
Defined.

(** ** An empty name in the middle of the walk *)

(** C6, the claim as written fails: [report.txt] (8) lies in an entry whose
    name reads as empty (7); the walk stops there and returns the segment it
    had gathered, not the empty string. *)
Lemma walk_keeps_partial_path :
  path (Arena.view Samples.tree) 7 = Some "" /\
  _do_get_path (Arena.view Samples.tree) 10 1 50 8 50 = Returns "/report.txt".
Proof. split; vm_compute; reflexivity. Qed.

(** C6, amended: an empty name read leaves the loop at once with the segments
    gathered so far. The walk then returns the empty string only if nothing
    had been gathered, that is when the empty name is that of the start entry;
    otherwise it returns the processed partial path, which is not empty. *)
Theorem walk_stops_at_empty_name (V : View) (fuel : nat)
        (rdentry rmnt : addr) (ret_path : list string) (dentry vfsmnt : addr) :
  dentry <> rdentry \/ vfsmnt <> rmnt ->
  path V dentry = Some "" ->
  walk_loop V (S fuel) rdentry rmnt ret_path dentry vfsmnt = Returns (ret_path, dentry) /\
  walk_from V (S fuel) rdentry rmnt ret_path dentry vfsmnt = post_process V ret_path dentry /\
  _do_get_path V (S fuel) rdentry rmnt dentry vfsmnt = Returns "" /\
  (ret_path <> [] ->
   exists s, walk_from V (S fuel) rdentry rmnt ret_path dentry vfsmnt = Returns s /\ s <> "").
Proof.
  intros Hc Hn.
  assert (Hb : forall acc, loop_body V acc dentry vfsmnt = Returns (acc, Break)).
  { intros acc. unfold loop_body. rewrite Hn. reflexivity. }
  assert (Hl : forall acc,
             walk_loop V (S fuel) rdentry rmnt acc dentry vfsmnt = Returns (acc, dentry)).
  { intros acc. apply walk_loop_break; auto. }
  unfold walk_from, _do_get_path. rewrite !Hl. simpl. repeat split.
  intros Hne. destruct (post_process_returns V ret_path dentry) as [s Hs].
  exists s. split; [assumption |]. intros ->.
  apply post_process_empty_iff in Hs. contradiction.
Qed.

Lemma walk_stops_at_empty_name_witness :
  exists s, walk_from (Arena.view Samples.tree) 1 1 50 ["report.txt"] 7 50 = Returns s /\ s <> "".
Proof.
  apply (walk_stops_at_empty_name (Arena.view Samples.tree) 0 1 50 ["report.txt"] 7 50).
  - left. discriminate.
  - reflexivity.
  - discriminate.
Defined.

(** ** Socket and pipe names *)

Lemma drop_last_snoc (s : string) (c : ascii) : PyStr.drop_last (s ++ String c "") = s.
Proof.
  induction s as [| a s IH]; [reflexivity |].
  rewrite append_cons. simpl. rewrite IH.
  destruct s; reflexivity.
Qed.

(** The guarded inode read gives the inode number, and [0] when either read
    fails. *)
Lemma ino_or_zero_spec (V : View) (dentry : addr) :
  ino_or_zero V dentry =
  Returns match d_inode V dentry with
          | Some inode => match i_ino V inode with Some ino => ino | None => 0 end
          | None => 0
          end.
Proof.
  unfold ino_or_zero.
  destruct (d_inode V dentry) as [inode |]; simpl; [| reflexivity].
  destruct (i_ino V inode); reflexivity.
Qed.

Lemma joined_nil : joined [] = "".
Proof. reflexivity. Qed.

Lemma post_process_appends (V : View) (ret_path : list string) (dentry : addr) :
  PyStr.startswith "socket:" (joined ret_path)
  || PyStr.startswith "pipe:" (joined ret_path) = true ->
  PyStr.contains "]" (joined ret_path) = false ->
  post_process V ret_path dentry =
  ino ← ino_or_zero V dentry;
  Returns (PyStr.drop_last (joined ret_path) ++ ":[" ++ PyStr.format_d ino ++ "]").
Proof.
  intros Hsp Hc. destruct ret_path as [| p l].
  - rewrite joined_nil in Hsp. discriminate.
  - unfold post_process. rewrite Hsp, Hc. reflexivity.
Qed.

Lemma post_process_strips (V : View) (ret_path : list string) (dentry : addr) :
  PyStr.startswith "socket:" (joined ret_path)
  || PyStr.startswith "pipe:" (joined ret_path) = true ->
  PyStr.contains "]" (joined ret_path) = true ->
  post_process V ret_path dentry = Returns (PyStr.remove "/" (joined ret_path)).
Proof.
  intros Hsp Hc. destruct ret_path as [| p l].
  - rewrite joined_nil in Hsp. discriminate.
  - unfold post_process. rewrite Hsp, Hc. reflexivity.
Qed.

(** C5, the claim as written fails: for the joined value ["socket:1234"] the
    code drops the final ['4'] and appends, giving ["socket:123:[777]"] and
    not ["socket:[777]"]. *)
Lemma socket_1234_keeps_digits :
  joined ["socket:1234"] = "socket:1234" /\
  ino_or_zero (Arena.view Samples.tree) 6 = Returns 777 /\
  post_process (Arena.view Samples.tree) ["socket:1234"] 6 = Returns "socket:123:[777]".
Proof. repeat split; vm_compute; reflexivity. Qed.

(** C5, amended: a joined value that starts with ["socket:"] or ["pipe:"] and
    holds no [']'] loses its last character, whatever that character is, and
    gets [":[N]"] appended, [N] being the inode number read through the
    [dentry] variable, or [0] if that read fails; so ["socket:"] becomes
    ["socket:[N]"] and ["socket:1234"] becomes ["socket:123:[N]"]. A value
    that does hold [']'] has every ['/'] removed. *)
Theorem post_process_special (V : View) (ret_path : list string) (dentry : addr) :
  PyStr.startswith "socket:" (joined ret_path)
  || PyStr.startswith "pipe:" (joined ret_path) = true ->
  (PyStr.contains "]" (joined ret_path) = false ->
   post_process V ret_path dentry =
   Returns (PyStr.drop_last (joined ret_path) ++ ":["
            ++ PyStr.format_d match d_inode V dentry with
                              | Some inode =>
                                  match i_ino V inode with Some ino => ino | None => 0 end
                              | None => 0
                              end
            ++ "]")) /\
  (PyStr.contains "]" (joined ret_path) = true ->
   post_process V ret_path dentry = Returns (PyStr.remove "/" (joined ret_path)) /\
   PyStr.contains "/" (PyStr.remove "/" (joined ret_path)) = false) /\
  (forall s c, joined ret_path = s ++ String c "" -> PyStr.drop_last (joined ret_path) = s).
Proof.
  intros Hsp. repeat split.
  - intros Hc. rewrite (post_process_appends V ret_path dentry Hsp Hc).
    rewrite ino_or_zero_spec. reflexivity.
  - apply post_process_strips; assumption.
  - apply remove_removes.
  - intros s c ->. apply drop_last_snoc.
Qed.

Lemma post_process_special_witness :
  post_process (Arena.view Samples.tree) ["socket:"] 6 = Returns "socket:[777]" /\
  post_process (Arena.view Samples.tree) ["pipe:[9]"; "x"] 6 = Returns "pipe:[9]x".
Proof.
  split.
  - apply (post_process_special (Arena.view Samples.tree) ["socket:"] 6); reflexivity.
  - apply (post_process_special (Arena.view Samples.tree) ["pipe:[9]"; "x"] 6); reflexivity.
Defined.

(** ** Plain paths inside one mount *)

Section ChainFacts.

Variable V : View.

(** One pass over an entry that is neither at a mount boundary nor wiped
    pushes its name and moves to the parent. *)
Lemma loop_body_ascends ret_path dentry vfsmnt n mnt_root parent :
  path V dentry = Some n -> n <> "" ->
  get_mnt_root V vfsmnt = Some mnt_root -> dentry <> mnt_root ->
  d_parent V dentry = Some parent -> dentry <> parent ->
  loop_body V ret_path dentry vfsmnt
  = Returns (PyStr.strip "/" n :: ret_path, Continue parent vfsmnt).
Proof.
  intros Hn Hne Hr Hnr Hp Hnp. unfold loop_body, at_mount_boundary.
  rewrite Hn. simpl. rewrite decide_False by assumption.
  rewrite Hr. simpl. rewrite decide_False by assumption.
  rewrite Hp. simpl. rewrite bool_decide_eq_false_2 by assumption.
  reflexivity.
Qed.

Lemma walk_loop_below rdentry rmnt : forall names ret_path dentry fuel,
  below V rdentry rmnt dentry names ->
  Forall segment names ->
  (length names < fuel)%nat ->
  walk_loop V fuel rdentry rmnt ret_path dentry rmnt
  = Returns ((rev names ++ ret_path)%list, rdentry).
Proof.
  induction names as [| n names IH]; intros acc d fuel Hb Hs Hf;
    (destruct fuel as [| fuel]; [simpl in Hf; lia |]).
  - simpl in Hb. subst d. apply walk_loop_exit.
  - destruct Hb as (Hd & Hn & (mr & Hr & Hmr) & p & Hp & Hdp & Hb).
    apply Forall_cons in Hs as [[Hne Hst] Hs].
    rewrite (walk_loop_continue V fuel rdentry rmnt acc d rmnt
               (PyStr.strip "/" n :: acc) p rmnt); [| auto |].
    + rewrite Hst. rewrite (IH (n :: acc) p fuel Hb Hs); [| simpl in Hf; lia].
      simpl. rewrite <- app_assoc. reflexivity.
    + eapply loop_body_ascends; eauto.
Qed.

End ChainFacts.

(** C3, the claim as written fails: the entry named [inotify] lies one level
    below the root, inside the root mount, and the walk returns ["inotify"],
    not ["/inotify"]. *)
Lemma inotify_gets_no_slash :
  below (Arena.view Samples.tree) 1 50 5 ["inotify"] /\
  NoDup ["inotify"] /\ Forall segment ["inotify"] /\
  _do_get_path (Arena.view Samples.tree) 10 1 50 5 50 = Returns "inotify".
Proof.
  split; [| split; [| split]].
  - simpl. split; [discriminate |]. split; [reflexivity |].
    split; [exists 1; split; [reflexivity | discriminate] |].
    exists 1. split; [reflexivity |]. split; [discriminate | reflexivity].
  - apply NoDup_singleton.
  - repeat constructor; discriminate.
  - vm_compute. reflexivity.
Qed.

(** C3, amended: when the start entry lies [N >= 1] levels below the root
    entry inside the root mount, meeting no mount boundary, the stored names
    are non-empty and carry no ['/'] at either end, and the names joined with
    ['/'] neither start with ["socket:"] or ["pipe:"] nor equal ["inotify"],
    the walk returns ['/'] followed by the names joined with ['/'] in
    root-to-leaf order. *)
Theorem walk_of_chain (V : View) (fuel : nat) (rdentry rmnt dentry : addr)
        (names : list string) :
  below V rdentry rmnt dentry (rev names) ->
  Forall segment names ->
  names <> [] ->
  PyStr.startswith "socket:" (PyStr.join "/" names)
  || PyStr.startswith "pipe:" (PyStr.join "/" names) = false ->
  PyStr.join "/" names <> "inotify" ->
  (length names < fuel)%nat ->
  _do_get_path V fuel rdentry rmnt dentry rmnt = Returns ("/" ++ PyStr.join "/" names).
Proof.
  intros Hb Hs Hne Hsp Hin Hf. unfold _do_get_path.
  rewrite (walk_loop_below V rdentry rmnt (rev names) [] dentry fuel Hb).
  - rewrite rev_involutive, app_nil_r. simpl.
    assert (Hj : joined names = PyStr.join "/" names).
    { unfold joined. rewrite filter_nonempty_id; [reflexivity |].
      eapply Forall_impl; [exact Hs |]. intros n [Hn _]. exact Hn. }
    unfold post_process. destruct names as [| n names]; [congruence |].
    rewrite Hj, Hsp. rewrite decide_True by assumption. reflexivity.
  - apply Forall_rev. assumption.
  - rewrite length_rev. assumption.
Qed.

Lemma walk_of_chain_witness :
  _do_get_path (Arena.view Samples.tree) 10 1 50 4 50 = Returns "/home/alice/notes.txt".
Proof.
  apply (walk_of_chain (Arena.view Samples.tree) 10 1 50 4 ["home"; "alice"; "notes.txt"]).
  - simpl. repeat first [reflexivity | discriminate | split | eexists].
  - repeat constructor; discriminate.
  - discriminate.
  - reflexivity.
  - discriminate.
  - simpl. lia.
Defined.

(** ** Termination of the walk *)

Section Termination.

Variable V : View.

(** What a pass that goes back to the loop test has done: it went up to the
    parent, which is another entry, or across a mount boundary to the
    mountpoint in the parent mount, which is another mount. *)
Lemma loop_body_continue_inv ret_path dentry vfsmnt ret_path' dentry' vfsmnt' :
  loop_body V ret_path dentry vfsmnt = Returns (ret_path', Continue dentry' vfsmnt') ->
  (d_parent V dentry = Some dentry' /\ dentry <> dentry' /\ vfsmnt' = vfsmnt) \/
  (get_mnt_parent V vfsmnt = Some vfsmnt' /\ vfsmnt' <> vfsmnt /\
   get_mnt_mountpoint V vfsmnt = Some dentry').
Proof.
  unfold loop_body, at_mount_boundary.
  destruct (path V dentry) as [dname |]; simpl; [| discriminate].
  destruct (decide (dname = "")); [discriminate |].
  destruct (get_mnt_root V vfsmnt) as [mnt_root |]; simpl; [| discriminate].
  assert (Hcross :
    (mnt_parent ← read (get_mnt_parent V vfsmnt);
     if decide (mnt_parent = vfsmnt)
     then Returns (PyStr.strip "/" dname :: ret_path, Break)
     else mountpoint ← read (get_mnt_mountpoint V vfsmnt);
          mnt_parent ← read (get_mnt_parent V vfsmnt);
          Returns (PyStr.strip "/" dname :: ret_path, Continue mountpoint mnt_parent))
    = Returns (ret_path', Continue dentry' vfsmnt') ->
    get_mnt_parent V vfsmnt = Some vfsmnt' /\ vfsmnt' <> vfsmnt /\
    get_mnt_mountpoint V vfsmnt = Some dentry').
  { destruct (get_mnt_parent V vfsmnt) as [mp |]; simpl; [| discriminate].
    destruct (decide (mp = vfsmnt)); [discriminate |].
    destruct (get_mnt_mountpoint V vfsmnt) as [mpt |]; simpl; [| discriminate].
    intros H. injection H as _ -> ->. auto. }
  destruct (decide (dentry = mnt_root)); simpl.
  - intros H. right. exact (Hcross H).
  - destruct (d_parent V dentry) as [p |]; simpl; [| discriminate].
    destruct (bool_decide (dentry = p)) eqn:Hp; simpl.
    + intros H. right. exact (Hcross H).
    + intros H. injection H as _ -> ->. left.
      apply bool_decide_eq_false in Hp. auto.
Qed.

Variables rdentry rmnt : addr.
Variable rank : addr -> addr -> nat.
Hypothesis rank_falls :
  forall ret_path dentry vfsmnt ret_path' dentry' vfsmnt',
    dentry <> rdentry \/ vfsmnt <> rmnt ->
    loop_body V ret_path dentry vfsmnt = Returns (ret_path', Continue dentry' vfsmnt') ->
    (rank dentry' vfsmnt' < rank dentry vfsmnt)%nat.

Lemma walk_loop_ranked fuel : forall ret_path dentry vfsmnt,
  (rank dentry vfsmnt < fuel)%nat ->
  walk_loop V fuel rdentry rmnt ret_path dentry vfsmnt <> OutOfFuel.
Proof.
  induction fuel as [| fuel IH]; intros acc d v Hr; [lia |].
  simpl. destruct (decide _) as [Hc | _]; [| discriminate].
  destruct (loop_body V acc d v) as [[acc' [| d' v']] | e |] eqn:Hb; simpl;
    try discriminate.
  - apply IH. specialize (rank_falls _ _ _ _ _ _ Hc Hb). lia.
  - exfalso. exact (loop_body_finishes V acc d v Hb).
Qed.

End Termination.

Lemma cyclic_loop_spins (fuel : nat) : forall ret_path,
  walk_loop (Arena.view Samples.cyclic) fuel 1 50 ret_path 2 50 = OutOfFuel /\
  walk_loop (Arena.view Samples.cyclic) fuel 1 50 ret_path 3 50 = OutOfFuel.
Proof.
  induction fuel as [| fuel IH]; intros acc; [split; reflexivity |].
  split.
  - rewrite (walk_loop_continue _ fuel 1 50 acc 2 50 ("a" :: acc) 3 50);
      [apply IH | left; discriminate | reflexivity].
  - rewrite (walk_loop_continue _ fuel 1 50 acc 3 50 ("b" :: acc) 2 50);
      [apply IH | left; discriminate | reflexivity].
Qed.

(** C2, the claim as written fails: the loop has no iteration cap. With
    entries 2 and 3 each other's parent, the walk from entry 2 gives no answer
    under any budget, the empty string included. *)
Lemma cyclic_walk_never_returns :
  ~ exists fuel, _do_get_path (Arena.view Samples.cyclic) fuel 1 50 2 50 <> OutOfFuel.
Proof.
  intros [fuel H]. apply H. unfold _do_get_path.
  rewrite (proj1 (cyclic_loop_spins fuel [])). reflexivity.
Qed.

(** From a set of pairs on which the loop test holds and every pass goes
    back to the loop test inside the set, the loop never ends. *)
Lemma walk_loop_spinning (V : View) (rdentry rmnt : addr) (spins : addr -> addr -> Prop) :
  (forall dentry vfsmnt,
      spins dentry vfsmnt ->
      (dentry <> rdentry \/ vfsmnt <> rmnt) /\
      exists dentry' vfsmnt',
        spins dentry' vfsmnt' /\
        forall ret_path, exists ret_path',
            loop_body V ret_path dentry vfsmnt
            = Returns (ret_path', Continue dentry' vfsmnt')) ->
  forall fuel ret_path dentry vfsmnt,
    spins dentry vfsmnt ->
    walk_loop V fuel rdentry rmnt ret_path dentry vfsmnt = OutOfFuel.
Proof.
  intros Hspin. induction fuel as [| fuel IH]; intros acc d v Hs; [reflexivity |].
  destruct (Hspin d v Hs) as (Hc & d' & v' & Hs' & Hb).
  destruct (Hb acc) as [acc' Hb'].
  rewrite (walk_loop_continue V fuel rdentry rmnt acc d v acc' d' v' Hc Hb').
  apply IH. exact Hs'.
Qed.

(** C2, amended: the walk has no iteration cap. It terminates on every input
    whose links are well founded: whenever some natural-number rank of the
    pair (dentry, mount) falls at each pass that returns to the loop test, it
    answers within rank + 1 tests of the loop condition, and the answer is
    the same under every larger budget. It does not terminate, and returns
    nothing, from a pair that lies in a set of pairs on which the loop test
    holds and every pass goes back to the loop test inside the set, such as
    two entries that are each other's parent below a root they never reach. *)
Theorem walk_termination_criteria (V : View) (rdentry rmnt : addr) :
  (forall rank : addr -> addr -> nat,
      (forall ret_path dentry vfsmnt ret_path' dentry' vfsmnt',
          dentry <> rdentry \/ vfsmnt <> rmnt ->
          loop_body V ret_path dentry vfsmnt
          = Returns (ret_path', Continue dentry' vfsmnt') ->
          (rank dentry' vfsmnt' < rank dentry vfsmnt)%nat) ->
      forall dentry vfsmnt,
      exists r, r <> OutOfFuel /\
                forall fuel, (rank dentry vfsmnt < fuel)%nat ->
                             _do_get_path V fuel rdentry rmnt dentry vfsmnt = r) /\
  (forall spins : addr -> addr -> Prop,
      (forall dentry vfsmnt,
          spins dentry vfsmnt ->
          (dentry <> rdentry \/ vfsmnt <> rmnt) /\
          exists dentry' vfsmnt',
            spins dentry' vfsmnt' /\
            forall ret_path, exists ret_path',
                loop_body V ret_path dentry vfsmnt
                = Returns (ret_path', Continue dentry' vfsmnt')) ->
      forall dentry vfsmnt,
        spins dentry vfsmnt ->
        forall fuel, _do_get_path V fuel rdentry rmnt dentry vfsmnt = OutOfFuel).
Proof.
  split.
  - intros rank Hrank dentry vfsmnt.
    exists (_do_get_path V (S (rank dentry vfsmnt)) rdentry rmnt dentry vfsmnt).
    assert (Hne : walk_loop V (S (rank dentry vfsmnt)) rdentry rmnt [] dentry vfsmnt
                  <> OutOfFuel)
      by (apply (walk_loop_ranked V rdentry rmnt rank Hrank); lia).
    split.
    + unfold _do_get_path.
      destruct (walk_loop V (S (rank dentry vfsmnt)) rdentry rmnt [] dentry vfsmnt)
        as [[acc d] | e |]; simpl; [| discriminate | congruence].
      destruct (post_process_returns V acc d) as [s ->]. discriminate.
    + intros fuel Hf. unfold _do_get_path.
      rewrite (walk_loop_mono V (S (rank dentry vfsmnt)) fuel);
        [reflexivity | lia | exact Hne].
  - intros spins Hspin dentry vfsmnt Hs fuel. unfold _do_get_path.
    rewrite (walk_loop_spinning V rdentry rmnt spins Hspin fuel [] dentry vfsmnt Hs).
    reflexivity.
Qed.

(** Every pass over [Samples.tree] lowers [Samples.tree_rank]. *)
Lemma tree_rank_falls ret_path dentry vfsmnt ret_path' dentry' vfsmnt' :
  loop_body (Arena.view Samples.tree) ret_path dentry vfsmnt
  = Returns (ret_path', Continue dentry' vfsmnt') ->
  (Samples.tree_rank dentry' vfsmnt' < Samples.tree_rank dentry vfsmnt)%nat.
Proof.
  intros Hb. apply loop_body_continue_inv in Hb as [(Hp & Hne & ->) | (Hp & Hne & Hm)].
  - change (Arena.parent <$> (list_to_map Samples.tree_dentries : gmap addr _) !! dentry
            = Some dentry') in Hp.
    apply fmap_Some in Hp as (de & Hd & ->).
    apply elem_of_list_to_map_2 in Hd. unfold Samples.tree_dentries in Hd.
    repeat (apply elem_of_cons in Hd as [Hd | Hd];
            [injection Hd as -> ->; simpl in *; unfold Samples.tree_rank;
             first [congruence | lia] |]).
    apply elem_of_nil in Hd. contradiction.
  - change (Arena.mnt_parent <$> (list_to_map Samples.tree_mounts : gmap addr _) !! vfsmnt
            = Some vfsmnt') in Hp.
    change (Arena.mnt_mountpoint <$> (list_to_map Samples.tree_mounts : gmap addr _) !! vfsmnt
            = Some dentry') in Hm.
    apply fmap_Some in Hp as (m & Hv & ->).
    rewrite Hv in Hm. injection Hm as <-.
    apply elem_of_list_to_map_2 in Hv. unfold Samples.tree_mounts in Hv.
    repeat (apply elem_of_cons in Hv as [Hv | Hv];
            [injection Hv as -> ->; simpl in *; unfold Samples.tree_rank;
             first [congruence | lia] |]).
    apply elem_of_nil in Hv. contradiction.
Qed.

Lemma walk_termination_criteria_witness :
  (exists r, r <> OutOfFuel /\
             forall fuel, (Samples.tree_rank 4%N 50%N < fuel)%nat ->
                          _do_get_path (Arena.view Samples.tree) fuel 1 50 4 50 = r) /\
  (forall fuel, _do_get_path (Arena.view Samples.cyclic) fuel 1 50 3 50 = OutOfFuel).
Proof.
  split.
  - apply (proj1 (walk_termination_criteria (Arena.view Samples.tree) 1 50)
                 Samples.tree_rank).
    intros ret_path dentry vfsmnt ret_path' dentry' vfsmnt' _ Hb.
    exact (tree_rank_falls _ _ _ _ _ _ Hb).
  - apply (proj2 (walk_termination_criteria (Arena.view Samples.cyclic) 1 50)
                 (fun dentry vfsmnt => (dentry = 2 \/ dentry = 3) /\ vfsmnt = 50)).
    + intros dentry vfsmnt [[-> | ->] ->].
      * split; [left; discriminate |]. exists 3, 50.
        split; [split; [right; reflexivity | reflexivity] |].
        intros ret_path. eexists. reflexivity.
      * split; [left; discriminate |]. exists 2, 50.
        split; [split; [left; reflexivity | reflexivity] |].
        intros ret_path. eexists. reflexivity.
    + split; [right; reflexivity | reflexivity].
Defined.

(** ** The synthetic-name resolver *)

Section Resolver.

Variable V : View.
Variable context : ContextInterface.

(** The resolver once the three reads that lead to the symbol query have
    succeeded. *)
Lemma resolver_after_reads fuel task filp dentry ops sym_addr :
  get_dentry V filp = Some dentry ->
  d_op V dentry = Some ops ->
  d_dname V ops = Some sym_addr ->
  _get_new_sock_pipe_path V fuel context task filp =
  let symbs :=
    get_symbols_by_location context (ptr_value sym_addr) (symbol_table_of sym_addr) in
  if decide (length symbs = 1%nat) then
    symb ← index symbs 0;
    sym ← index (PyStr.split BANG symb) 1;
    pre_name ← pre_name_of V fuel task filp sym;
    inode ← read (d_inode V dentry);
    ino ← read (i_ino V inode);
    Returns (pre_name ++ ":[" ++ PyStr.format_d ino ++ "]")
  else
    Returns ("<invalid d_dname pointer> " ++ PyStr.format_x (ptr_value sym_addr)).
Proof.
  intros Hd Ho Hn. unfold _get_new_sock_pipe_path.
  rewrite Hd. simpl. rewrite Ho. simpl. rewrite Hn. reflexivity.
Qed.

End Resolver.

(** C8, the claim as written fails: the operations table of [shm] points at
    the single symbol [simple_dname]; the real-path walk gives ["/shm"], the
    resolver gives ["/shm:[4242]"]. *)
Lemma simple_dname_is_not_the_walk :
  (let V := Arena.view Samples.tree in
   exists sym_addr,
     d_dname V 400 = Some sym_addr /\
     get_symbols_by_location Samples.kernel_symbols (ptr_value sym_addr)
                             (symbol_table_of sym_addr) = ["linux!simple_dname"] /\
     _get_path_file V 10 100 209 = Returns "/shm" /\
     _get_new_sock_pipe_path V 10 Samples.kernel_symbols 100 209 = Returns "/shm:[4242]").
Proof. eexists. repeat split; vm_compute; reflexivity. Qed.

(** C8, amended: when the [d_dname] pointer resolves to exactly one symbol and
    that symbol is [simple_dname], the resolver runs the real-path walk for
    the file and returns the walk's result followed by [":[N]"], [N] being
    the inode number of the file's entry; its result is never the walk's
    result alone. *)
Theorem simple_dname_appends_inode (V : View) (context : ContextInterface) (fuel : nat)
        (task filp dentry ops : addr) (sym_addr : typed_ptr) (symb : string) :
  get_dentry V filp = Some dentry ->
  d_op V dentry = Some ops ->
  d_dname V ops = Some sym_addr ->
  get_symbols_by_location context (ptr_value sym_addr) (symbol_table_of sym_addr) = [symb] ->
  PyStr.split BANG symb !! 1%nat = Some "simple_dname" ->
  _get_new_sock_pipe_path V fuel context task filp =
  (pre_name ← _get_path_file V fuel task filp;
   inode ← read (d_inode V dentry);
   ino ← read (i_ino V inode);
   Returns (pre_name ++ ":[" ++ PyStr.format_d ino ++ "]")) /\
  (forall pre_name,
      _get_path_file V fuel task filp = Returns pre_name ->
      _get_new_sock_pipe_path V fuel context task filp <> Returns pre_name).
Proof.
  intros Hd Ho Hn Hs Hsym.
  assert (E : _get_new_sock_pipe_path V fuel context task filp =
              (pre_name ← _get_path_file V fuel task filp;
               inode ← read (d_inode V dentry);
               ino ← read (i_ino V inode);
               Returns (pre_name ++ ":[" ++ PyStr.format_d ino ++ "]"))).
  { rewrite (resolver_after_reads V context fuel task filp dentry ops sym_addr Hd Ho Hn).
    simpl. rewrite Hs. simpl. unfold index at 1. rewrite Hsym. simpl.
    unfold pre_name_of. reflexivity. }
  split; [exact E |].
  intros pre_name Hp. rewrite E, Hp. simpl.
  destruct (d_inode V dentry) as [inode |]; simpl; [| discriminate].
  destruct (i_ino V inode) as [ino |]; simpl; [| discriminate].
  intros H. injection H as H. revert H. apply append_grows. discriminate.
Qed.

Lemma simple_dname_appends_inode_witness :
  _get_new_sock_pipe_path (Arena.view Samples.tree) 10 Samples.kernel_symbols 100 209
  <> Returns "/shm".
Proof.
  apply (simple_dname_appends_inode (Arena.view Samples.tree) Samples.kernel_symbols 10
           100 209 9 400 (TypedPtr 0xffffffff81234560 "linux!pointer") "linux!simple_dname");
    reflexivity.
Defined.

(** C9: when the symbol query for the [d_dname] pointer gives no symbol or
    more than one, the resolver returns, without raising, the placeholder
    made of ["<invalid d_dname pointer> "] and the pointer's value in
    hexadecimal. *)
Theorem invalid_d_dname_placeholder (V : View) (context : ContextInterface) (fuel : nat)
        (task filp dentry ops : addr) (sym_addr : typed_ptr) :
  get_dentry V filp = Some dentry ->
  d_op V dentry = Some ops ->
  d_dname V ops = Some sym_addr ->
  (let symbs :=
     get_symbols_by_location context (ptr_value sym_addr) (symbol_table_of sym_addr) in
   length symbs = 0%nat \/ (1 < length symbs)%nat) ->
  _get_new_sock_pipe_path V fuel context task filp =
  Returns ("<invalid d_dname pointer> " ++ PyStr.format_x (ptr_value sym_addr)).
Proof.
  intros Hd Ho Hn Hs.
  rewrite (resolver_after_reads V context fuel task filp dentry ops sym_addr Hd Ho Hn).
  simpl in *. rewrite decide_False by lia. reflexivity.
Qed.

Lemma invalid_d_dname_placeholder_witness :
  _get_new_sock_pipe_path (Arena.view Samples.tree) 10 Samples.kernel_symbols 100 210
  = Returns "<invalid d_dname pointer> deadbeef".
Proof.
  apply (invalid_d_dname_placeholder (Arena.view Samples.tree) Samples.kernel_symbols 10
           100 210 10 401 (TypedPtr 0xdeadbeef "linux!pointer")).
  - reflexivity.
  - reflexivity.
  - reflexivity.
  - left. reflexivity.
Defined.

(** ** The facade *)

Section Facade.

Variable V : View.

(** The guarded test for a display-name routine always gives a truth value. *)
Lemma dname_is_valid_returns dentry :
  exists valid, dname_is_valid V dentry = Returns valid.
Proof.
  unfold dname_is_valid.
  destruct (d_op V dentry) as [ops |]; simpl; [| eauto].
  destruct (has_member_d_dname V ops) as [[|] |];
    destruct (d_dname V ops); destruct (decide _); simpl; eauto.
Qed.

(** With a readable, non-null entry the facade is the resolver that the
    test selects. *)
Lemma path_for_file_delegates fuel context task filp dentry valid :
  get_dentry V filp = Some dentry -> dentry <> 0 ->
  dname_is_valid V dentry = Returns valid ->
  path_for_file V fuel context task filp =
  if valid then _get_new_sock_pipe_path V fuel context task filp
  else _get_path_file V fuel task filp.
Proof.
  intros Hd Hn Hv. unfold path_for_file. rewrite Hd. simpl.
  rewrite decide_False by assumption. rewrite Hv. reflexivity.
Qed.

End Facade.

(** C1, the claim as written fails: file 207 sits in a mount that cannot be
    read; the walk's read of the mount root raises and [path_for_file] lets
    the exception through. *)
Lemma path_for_file_can_raise :
  get_mnt_root (Arena.view Samples.tree) 52 = None /\
  path_for_file (Arena.view Samples.tree) 10 Samples.kernel_symbols 100 207
  = Raises InvalidAddressException.
Proof. split; vm_compute; reflexivity. Qed.

(** C1, amended: [path_for_file] itself catches the invalid-reference failure
    of the read of the file's entry, returning the empty string (as it does
    for a null entry), and any such failure inside the test for a
    display-name routine, which then counts as absent. With a readable,
    non-null entry its outcome is that of the resolver the test selects, so it
    raises exactly when that resolver raises: failures inside the real-path
    walk it delegates to are not caught. *)
Theorem path_for_file_raises_only_below (V : View) (context : ContextInterface)
        (fuel : nat) (task filp : addr) :
  (get_dentry V filp = None -> path_for_file V fuel context task filp = Returns "") /\
  (get_dentry V filp = Some 0 -> path_for_file V fuel context task filp = Returns "") /\
  (forall dentry,
      get_dentry V filp = Some dentry -> dentry <> 0 ->
      exists valid,
        dname_is_valid V dentry = Returns valid /\
        path_for_file V fuel context task filp =
        if valid then _get_new_sock_pipe_path V fuel context task filp
        else _get_path_file V fuel task filp) /\
  (forall e,
      path_for_file V fuel context task filp = Raises e ->
      _get_new_sock_pipe_path V fuel context task filp = Raises e \/
      _get_path_file V fuel task filp = Raises e).
Proof.
  assert (Hdel : forall dentry,
             get_dentry V filp = Some dentry -> dentry <> 0 ->
             exists valid,
               dname_is_valid V dentry = Returns valid /\
               path_for_file V fuel context task filp =
               if valid then _get_new_sock_pipe_path V fuel context task filp
               else _get_path_file V fuel task filp).
  { intros dentry Hd Hn. destruct (dname_is_valid_returns V dentry) as [valid Hv].
    exists valid. split; [assumption |]. apply path_for_file_delegates with dentry; assumption. }
  repeat split.
  - intros H. unfold path_for_file. rewrite H. reflexivity.
  - intros H. unfold path_for_file. rewrite H. reflexivity.
  - exact Hdel.
  - intros e He. destruct (get_dentry V filp) as [dentry |] eqn:Hd.
    + destruct (decide (dentry = 0)) as [-> | Hn].
      * unfold path_for_file in He. rewrite Hd in He. simpl in He. discriminate.
      * destruct (Hdel dentry eq_refl Hn) as ([|] & _ & E); rewrite E in He; auto.
    + unfold path_for_file in He. rewrite Hd in He. discriminate.
Qed.

Lemma path_for_file_raises_only_below_witness :
  _get_new_sock_pipe_path (Arena.view Samples.tree) 10 Samples.kernel_symbols 100 207
  = Raises InvalidAddressException \/
  _get_path_file (Arena.view Samples.tree) 10 100 207 = Raises InvalidAddressException.
Proof.
  apply (path_for_file_raises_only_below (Arena.view Samples.tree) Samples.kernel_symbols
           10 100 207).
  vm_compute. reflexivity.
Defined.

(** ** The descriptor generator *)

Section EnumeratorFacts.

Variable V : View.
Variable context : ContextInterface.
Variables (fuel : nat) (task : addr).

(** The loop over the slots, when every path resolution returns. *)
Lemma for_fds_yields (path_of : addr -> string) : forall fds fd_num,
  (forall filp, filp ∈ fds -> filp <> 0 ->
                path_for_file V fuel context task filp = Returns (path_of filp)) ->
  for_fds V fuel context task fd_num fds
  = gen_of_list (open_descriptors path_of fd_num fds).
Proof.
  induction fds as [| filp fds IH]; intros fd_num Hp; [reflexivity |].
  assert (Hp' : forall f, f ∈ fds -> f <> 0 ->
                          path_for_file V fuel context task f = Returns (path_of f)).
  { intros f Hf. apply Hp. apply elem_of_cons. auto. }
  simpl. unfold open_descriptors. simpl.
  destruct (decide (filp <> 0)) as [Hn | Hn].
  - rewrite (Hp filp) by (auto; apply elem_of_cons; auto). simpl.
    rewrite filter_cons_True by exact Hn. simpl.
    rewrite (IH (S fd_num) Hp'). reflexivity.
  - rewrite filter_cons_False by exact Hn.
    rewrite (IH (S fd_num) Hp'). reflexivity.
Qed.

(** Whatever the path resolutions do, a triple that is yielded stands for a
    slot that is not null and carries the path resolved for it. *)
Lemma for_fds_yielded_sound : forall (fds : list addr) (fd_num i : nat) (filp : addr) (p : string),
  (i, filp, p) ∈ yielded (for_fds V fuel context task fd_num fds) ->
  (fd_num <= i)%nat /\ fds !! (i - fd_num)%nat = Some filp /\ filp <> 0 /\
  path_for_file V fuel context task filp = Returns p.
Proof.
  induction fds as [| f fds IH]; intros fd_num i filp p Hin; simpl in Hin.
  - apply elem_of_nil in Hin. contradiction.
  - assert (Hrest : (i, filp, p) ∈ yielded (for_fds V fuel context task (S fd_num) fds) ->
                    (fd_num <= i)%nat /\ (f :: fds) !! (i - fd_num)%nat = Some filp /\
                    filp <> 0 /\ path_for_file V fuel context task filp = Returns p).
    { intros H. apply IH in H as (Hle & Hl & Hn & Hp).
      split; [lia |]. split; [| auto].
      replace (i - fd_num)%nat with (S (i - S fd_num)) by lia. exact Hl. }
    destruct (decide (f <> 0)) as [Hn | Hn]; [| auto].
    destruct (path_for_file V fuel context task f) as [full_path | e |] eqn:Hp;
      simpl in Hin; try (apply elem_of_nil in Hin; contradiction).
    apply elem_of_cons in Hin as [E | Hin]; [| auto].
    injection E as -> -> ->. rewrite Nat.sub_diag. auto.
Qed.

End EnumeratorFacts.

(** Indices of the expected triples start no lower than the start index. *)
Lemma open_descriptors_bound (path_of : addr -> string) : forall fds start,
  Forall (fun t : nat * addr * string => (start <= t.1.1)%nat)
         (open_descriptors path_of start fds).
Proof.
  induction fds as [| filp fds IH]; intros start; [constructor |].
  unfold open_descriptors. simpl.
  assert (Ht : Forall (fun t : nat * addr * string => (start <= t.1.1)%nat)
                      (open_descriptors path_of (S start) fds)).
  { eapply Forall_impl; [apply IH |]. simpl. intros t Ht. lia. }
  destruct (decide (filp <> 0)) as [Hn | Hn].
  - rewrite filter_cons_True by exact Hn. simpl. constructor; [simpl; lia | exact Ht].
  - rewrite filter_cons_False by exact Hn. exact Ht.
Qed.

(** The expected triples come in strictly ascending index order. *)
Lemma open_descriptors_ascending (path_of : addr -> string) : forall fds start,
  StronglySorted lt ((fun t : nat * addr * string => t.1.1)
                       <$> open_descriptors path_of start fds).
Proof.
  induction fds as [| filp fds IH]; intros start; [constructor |].
  unfold open_descriptors. simpl.
  destruct (decide (filp <> 0)) as [Hn | Hn].
  - rewrite filter_cons_True by exact Hn. simpl. constructor; [apply IH |].
    apply Forall_fmap. eapply Forall_impl; [apply (open_descriptors_bound path_of fds (S start)) |].
    simpl. intros t Ht. lia.
  - rewrite filter_cons_False by exact Hn. apply IH.
Qed.

(** There are as many expected triples as slots that are not null. *)
Lemma open_descriptors_length (path_of : addr -> string) : forall fds start,
  length (open_descriptors path_of start fds)
  = length (filter (fun filp : addr => filp <> 0) fds).
Proof.
  induction fds as [| filp fds IH]; intros start; [reflexivity |].
  unfold open_descriptors. simpl.
  destruct (decide (filp <> 0)) as [Hn | Hn].
  - rewrite !filter_cons_True by exact Hn. simpl. f_equal. apply IH.
  - rewrite !filter_cons_False by exact Hn. apply IH.
Qed.

(** The triples listed for a slot array are exactly those of its non-null
    slots. *)
Lemma open_descriptors_elem (path_of : addr -> string) (fds : list addr)
      (i : nat) (filp : addr) (p : string) :
  (i, filp, p) ∈ open_descriptors path_of 0 fds <->
  fds !! i = Some filp /\ filp <> 0 /\ p = path_of filp.
Proof.
  assert (He : forall (l : list addr) (start j : nat) (f : addr),
             (j, f) ∈ enumerate_from start l <->
             (start <= j)%nat /\ l !! (j - start)%nat = Some f).
  { induction l as [| a l IH]; intros start j f; simpl.
    - rewrite elem_of_nil. split; [tauto | intros [_ H]; discriminate].
    - rewrite elem_of_cons, IH. split.
      + intros [E | [Hle Hl]].
        * injection E as -> ->. rewrite Nat.sub_diag. simpl. split; [lia | reflexivity].
        * split; [lia |]. replace (j - start)%nat with (S (j - S start)) by lia. exact Hl.
      + intros [Hle Hl]. destruct (decide (j = start)) as [-> | Hne].
        * rewrite Nat.sub_diag in Hl. simpl in Hl. left. congruence.
        * right. split; [lia |].
          replace (j - start)%nat with (S (j - S start)) in Hl by lia. exact Hl. }
  unfold open_descriptors. rewrite list_elem_of_fmap. split.
  - intros ([j f] & E & Hin). simpl in E. injection E as -> -> ->.
    apply list_elem_of_filter in Hin as [Hn Hin]. simpl in Hn.
    apply He in Hin as [_ Hl]. rewrite Nat.sub_0_r in Hl. auto.
  - intros (Hl & Hn & ->). exists (i, filp). split; [reflexivity |].
    apply list_elem_of_filter. split; [exact Hn |].
    apply He. rewrite Nat.sub_0_r. split; [lia | exact Hl].
Qed.

(** ** Symbol names and the table they belong to *)

Lemma split_no_separator (c : ascii) (s : string) :
  PyStr.contains c s = false -> PyStr.split c s = [s].
Proof.
  induction s as [| a s IH]; simpl; [reflexivity |].
  destruct (Ascii.eqb a c); [discriminate |].
  intros H. rewrite (IH H). reflexivity.
Qed.

Lemma split_at_separator (c : ascii) (t n : string) :
  PyStr.contains c t = false ->
  PyStr.split c (t ++ String c n) = t :: PyStr.split c n.
Proof.
  induction t as [| a t IH]; intros H.
  - change ("" ++ String c n) with (String c n). simpl.
    rewrite Ascii.eqb_refl. reflexivity.
  - rewrite append_cons. simpl in *.
    destruct (Ascii.eqb a c); [discriminate |].
    rewrite (IH H). reflexivity.
Qed.

(** The symbol query is scoped to the table named in front of the [!] of the
    pointer's type name when that name has exactly one [!], and is left
    unscoped when it has none or more than one. *)
Theorem symbol_table_of_type_name (value : addr) (table name : string) :
  PyStr.contains BANG table = false ->
  PyStr.contains BANG name = false ->
  symbol_table_of (TypedPtr value (table ++ String BANG name)) = Some table /\
  symbol_table_of (TypedPtr value name) = None /\
  (forall more,
      symbol_table_of (TypedPtr value (table ++ String BANG (name ++ String BANG more)))
      = None).
Proof.
  intros Ht Hn. unfold symbol_table_of. simpl.
  rewrite (split_at_separator BANG table name Ht), (split_no_separator BANG name Hn).
  split; [reflexivity |]. split; [reflexivity |].
  intros more.
  rewrite (split_at_separator BANG table _ Ht), (split_at_separator BANG name more Hn).
  destruct (PyStr.split BANG more) as [| h t] eqn:E; [| reflexivity].
  destruct more as [| a more]; [discriminate |].
  simpl in E. destruct (Ascii.eqb a BANG); [discriminate |].
  destruct (PyStr.split BANG more); discriminate.
Qed.

Lemma symbol_table_of_type_name_witness :
  symbol_table_of (TypedPtr 4096 "linux!pointer") = Some "linux" /\
  symbol_table_of (TypedPtr 4096 "pointer") = None /\
  (forall more, symbol_table_of (TypedPtr 4096 ("linux!pointer!" ++ more)) = None).
Proof.
  apply (symbol_table_of_type_name 4096 "linux" "pointer"); reflexivity.
Defined.

Section ResolverBranches.

Variable V : View.
Variable context : ContextInterface.
Variables (fuel : nat) (task filp dentry ops : addr) (sym_addr : typed_ptr).
Hypothesis dentry_read : get_dentry V filp = Some dentry.
Hypothesis ops_read : d_op V dentry = Some ops.
Hypothesis pointer_read : d_dname V ops = Some sym_addr.

(** The resolver once the query has given the single symbol [table!sym]. *)
Lemma resolver_single_symbol (table sym : string) :
  get_symbols_by_location context (ptr_value sym_addr) (symbol_table_of sym_addr)
  = [table ++ String BANG sym] ->
  PyStr.contains BANG table = false ->
  PyStr.contains BANG sym = false ->
  _get_new_sock_pipe_path V fuel context task filp =
  pre_name ← pre_name_of V fuel task filp sym;
  inode ← read (d_inode V dentry);
  ino ← read (i_ino V inode);
  Returns (pre_name ++ ":[" ++ PyStr.format_d ino ++ "]").
Proof.
  intros Hs Ht Hn.
  rewrite (resolver_after_reads V context fuel task filp dentry ops sym_addr
             dentry_read ops_read pointer_read).
  simpl. rewrite Hs. simpl. unfold index.
  rewrite (split_at_separator BANG table sym Ht), (split_no_separator BANG sym Hn).
  reflexivity.
Qed.

End ResolverBranches.

(** Sockets, anonymous inodes and pipes: when the query gives the single
    symbol [table!sockfs_dname], [table!anon_inodefs_dname] or
    [table!pipefs_dname] and the inode number of the file's entry can be read,
    the resolver returns ["socket:[N]"], ["anon_inode:[N]"] or ["pipe:[N]"]. *)
Theorem resolver_known_symbols (V : View) (context : ContextInterface) (fuel : nat)
        (task filp dentry ops : addr) (sym_addr : typed_ptr)
        (table sym pre_name : string) (inode : addr) (ino : N) :
  get_dentry V filp = Some dentry ->
  d_op V dentry = Some ops ->
  d_dname V ops = Some sym_addr ->
  get_symbols_by_location context (ptr_value sym_addr) (symbol_table_of sym_addr)
  = [table ++ String BANG sym] ->
  PyStr.contains BANG table = false ->
  (sym, pre_name) ∈ [ ("sockfs_dname", "socket"); ("anon_inodefs_dname", "anon_inode");
                      ("pipefs_dname", "pipe") ] ->
  d_inode V dentry = Some inode ->
  i_ino V inode = Some ino ->
  _get_new_sock_pipe_path V fuel context task filp
  = Returns (pre_name ++ ":[" ++ PyStr.format_d ino ++ "]").
Proof.
  intros Hd Ho Hp Hs Ht Hin Hi Hn.
  assert (Hb : PyStr.contains BANG sym = false /\
               pre_name_of V fuel task filp sym = Returns pre_name).
  { repeat (apply elem_of_cons in Hin as [Hin | Hin];
            [injection Hin as -> ->; split; reflexivity |]).
    apply elem_of_nil in Hin. contradiction. }
  destruct Hb as [Hb Hpre].
  rewrite (resolver_single_symbol V context fuel task filp dentry ops sym_addr
             Hd Ho Hp table sym Hs Ht Hb).
  rewrite Hpre. simpl. rewrite Hi. simpl. rewrite Hn. reflexivity.
Qed.

Lemma resolver_known_symbols_witness :
  _get_new_sock_pipe_path (Arena.view Desk.snap) 10 Desk.symbols 100 230
  = Returns "socket:[31337]" /\
  _get_new_sock_pipe_path (Arena.view Desk.snap) 10 Desk.symbols 100 232
  = Returns "anon_inode:[99]" /\
  _get_new_sock_pipe_path (Arena.view Desk.snap) 10 Desk.symbols 100 231
  = Returns "pipe:[8080]".
Proof.
  split; [| split].
  - apply (resolver_known_symbols (Arena.view Desk.snap) Desk.symbols 10 100 230 30 500
             (TypedPtr 0x1000 "linux!pointer") "linux" "sockfs_dname" "socket" 40 31337);
      try reflexivity.
    apply elem_of_cons. left. reflexivity.
  - apply (resolver_known_symbols (Arena.view Desk.snap) Desk.symbols 10 100 232 32 502
             (TypedPtr 0x3000 "linux!pointer") "linux" "anon_inodefs_dname" "anon_inode" 42 99);
      try reflexivity.
    apply elem_of_cons. right. apply elem_of_cons. left. reflexivity.
  - apply (resolver_known_symbols (Arena.view Desk.snap) Desk.symbols 10 100 231 31 501
             (TypedPtr 0x2000 "linux!pointer") "linux" "pipefs_dname" "pipe" 41 8080);
      try reflexivity.
    do 2 (apply elem_of_cons; right). apply elem_of_cons. left. reflexivity.
Defined.

(** A display routine the code does not know: for a single symbol [table!sym]
    with [sym] none of the four names handled, the resolver returns the
    placeholder naming the symbol, and the inode number is appended to the
    placeholder as to any other prefix. *)
Theorem resolver_unsupported_symbol (V : View) (context : ContextInterface) (fuel : nat)
        (task filp dentry ops : addr) (sym_addr : typed_ptr)
        (table sym : string) (inode : addr) (ino : N) :
  get_dentry V filp = Some dentry ->
  d_op V dentry = Some ops ->
  d_dname V ops = Some sym_addr ->
  get_symbols_by_location context (ptr_value sym_addr) (symbol_table_of sym_addr)
  = [table ++ String BANG sym] ->
  PyStr.contains BANG table = false ->
  PyStr.contains BANG sym = false ->
  sym ∉ ["sockfs_dname"; "anon_inodefs_dname"; "pipefs_dname"; "simple_dname"] ->
  d_inode V dentry = Some inode ->
  i_ino V inode = Some ino ->
  _get_new_sock_pipe_path V fuel context task filp
  = Returns (("<unsupported d_op symbol: " ++ sym ++ ">") ++ ":[" ++ PyStr.format_d ino ++ "]").
Proof.
  intros Hd Ho Hp Hs Ht Hb Hnot Hi Hn.
  rewrite (resolver_single_symbol V context fuel task filp dentry ops sym_addr
             Hd Ho Hp table sym Hs Ht Hb).
  unfold pre_name_of.
  repeat (rewrite decide_False;
          [| intros ->; apply Hnot; repeat first [apply list_elem_of_here | apply list_elem_of_further]]).
  simpl. rewrite Hi. simpl. rewrite Hn. reflexivity.
Qed.

Lemma resolver_unsupported_symbol_witness :
  _get_new_sock_pipe_path (Arena.view Desk.snap) 10 Desk.symbols 100 233
  = Returns "<unsupported d_op symbol: ns_dname>:[7]".
Proof.
  apply (resolver_unsupported_symbol (Arena.view Desk.snap) Desk.symbols 10 100 233 33 503
           (TypedPtr 0x4000 "linux!pointer") "linux" "ns_dname" 43 7); try reflexivity.
  intros Hin.
  repeat (apply elem_of_cons in Hin as [Hin | Hin]; [discriminate Hin |]).
  apply elem_of_nil in Hin. contradiction.
Defined.

(** A symbol name without [!]: when the query gives a single symbol that
    carries no table name, [symbs[0].split("!")[1]] is out of range and the
    resolver raises [IndexError]. *)
Theorem resolver_symbol_without_table (V : View) (context : ContextInterface) (fuel : nat)
        (task filp dentry ops : addr) (sym_addr : typed_ptr) (symb : string) :
  get_dentry V filp = Some dentry ->
  d_op V dentry = Some ops ->
  d_dname V ops = Some sym_addr ->
  get_symbols_by_location context (ptr_value sym_addr) (symbol_table_of sym_addr) = [symb] ->
  PyStr.contains BANG symb = false ->
  _get_new_sock_pipe_path V fuel context task filp = Raises IndexError.
Proof.
  intros Hd Ho Hp Hs Hb.
  rewrite (resolver_after_reads V context fuel task filp dentry ops sym_addr Hd Ho Hp).
  simpl. rewrite Hs. simpl. unfold index.
  rewrite (split_no_separator BANG symb Hb). reflexivity.
Qed.

Lemma resolver_symbol_without_table_witness :
  _get_new_sock_pipe_path (Arena.view Desk.snap) 10 Desk.symbols 100 234 = Raises IndexError.
Proof.
  apply (resolver_symbol_without_table (Arena.view Desk.snap) Desk.symbols 10 100 234 34 504
           (TypedPtr 0x5000 "linux!pointer") "sockfs_dname"); reflexivity.
Defined.

(** ** Which resolver the facade uses *)

(** The test for a display-name routine succeeds exactly when the operations
    table is readable and not null, declares [d_dname], and holds a readable,
    non-null [d_dname] pointer. *)
Lemma dname_is_valid_true_iff (V : View) (dentry : addr) :
  dname_is_valid V dentry = Returns true <->
  exists ops sym_addr,
    d_op V dentry = Some ops /\ ops <> 0 /\
    has_member_d_dname V ops = Some true /\
    d_dname V ops = Some sym_addr /\ ptr_value sym_addr <> 0.
Proof.
  unfold dname_is_valid. split.
  - destruct (d_op V dentry) as [ops |]; simpl; [| discriminate].
    destruct (decide _) as [Hops | _]; [| discriminate].
    destruct (has_member_d_dname V ops) as [[|] |] eqn:Hm; simpl; try discriminate.
    destruct (d_dname V ops) as [sym_addr |] eqn:Hp; simpl; [| discriminate].
    intros H. injection H as H. apply bool_decide_eq_true in H.
    exists ops, sym_addr. auto.
  - intros (ops & sym_addr & -> & Hops & Hm & Hp & Hv). simpl.
    rewrite decide_True by exact Hops. rewrite Hm. simpl. rewrite Hp. simpl.
    rewrite bool_decide_eq_true_2 by exact Hv. reflexivity.
Qed.

(** For a file whose entry is readable and not null, [path_for_file] is the
    synthetic-name resolver exactly when the entry's operations table is
    readable and not null, declares [d_dname] and holds a readable, non-null
    [d_dname] pointer; in every other case, a failed read among them
    included, it is the real-path walk. *)
Theorem path_for_file_selects (V : View) (context : ContextInterface) (fuel : nat)
        (task filp dentry : addr) :
  get_dentry V filp = Some dentry ->
  dentry <> 0 ->
  ((exists ops sym_addr,
       d_op V dentry = Some ops /\ ops <> 0 /\
       has_member_d_dname V ops = Some true /\
       d_dname V ops = Some sym_addr /\ ptr_value sym_addr <> 0) ->
   path_for_file V fuel context task filp
   = _get_new_sock_pipe_path V fuel context task filp) /\
  (~ (exists ops sym_addr,
         d_op V dentry = Some ops /\ ops <> 0 /\
         has_member_d_dname V ops = Some true /\
         d_dname V ops = Some sym_addr /\ ptr_value sym_addr <> 0) ->
   path_for_file V fuel context task filp = _get_path_file V fuel task filp).
Proof.
  intros Hd Hn. split; intros H.
  - apply dname_is_valid_true_iff in H.
    rewrite (path_for_file_delegates V fuel context task filp dentry true Hd Hn H).
    reflexivity.
  - destruct (dname_is_valid_returns V dentry) as [[|] Hv].
    + exfalso. apply H. apply dname_is_valid_true_iff. exact Hv.
    + rewrite (path_for_file_delegates V fuel context task filp dentry false Hd Hn Hv).
      reflexivity.
Qed.

Lemma path_for_file_selects_witness :
  path_for_file (Arena.view Desk.snap) 10 Desk.symbols 100 230
  = _get_new_sock_pipe_path (Arena.view Desk.snap) 10 Desk.symbols 100 230 /\
  path_for_file (Arena.view Desk.snap) 10 Desk.symbols 100 203
  = _get_path_file (Arena.view Desk.snap) 10 100 203.
Proof.
  split.
  - apply (path_for_file_selects (Arena.view Desk.snap) Desk.symbols 10 100 230 30);
      [reflexivity | discriminate |].
    exists 500, (TypedPtr 0x1000 "linux!pointer").
    repeat split; first [reflexivity | discriminate].
  - apply (path_for_file_selects (Arena.view Desk.snap) Desk.symbols 10 100 203 3);
      [reflexivity | discriminate |].
    intros (ops & sym_addr & Ho & Hn & _). vm_compute in Ho. congruence.
Defined.

(** The inode read of the resolver is not guarded: for a socket, pipe or
    anonymous-inode entry whose inode number cannot be read,
    [path_for_file] raises [InvalidAddressException], where the walk's own
    inode read would have given [0]. *)
Theorem path_for_file_unreadable_inode (V : View) (context : ContextInterface) (fuel : nat)
        (task filp dentry ops : addr) (sym_addr : typed_ptr) (table sym : string) :
  get_dentry V filp = Some dentry -> dentry <> 0 ->
  d_op V dentry = Some ops -> ops <> 0 ->
  has_member_d_dname V ops = Some true ->
  d_dname V ops = Some sym_addr -> ptr_value sym_addr <> 0 ->
  get_symbols_by_location context (ptr_value sym_addr) (symbol_table_of sym_addr)
  = [table ++ String BANG sym] ->
  PyStr.contains BANG table = false ->
  sym ∈ ["sockfs_dname"; "anon_inodefs_dname"; "pipefs_dname"] ->
  (d_inode V dentry = None \/
   exists inode, d_inode V dentry = Some inode /\ i_ino V inode = None) ->
  path_for_file V fuel context task filp = Raises InvalidAddressException /\
  ino_or_zero V dentry = Returns 0.
Proof.
  intros Hd Hdn Ho Hon Hm Hp Hv Hs Ht Hin Hfail.
  assert (Hvalid : dname_is_valid V dentry = Returns true).
  { apply dname_is_valid_true_iff. exists ops, sym_addr. auto. }
  rewrite (path_for_file_delegates V fuel context task filp dentry true Hd Hdn Hvalid).
  assert (Hb : PyStr.contains BANG sym = false /\
               exists pre_name, pre_name_of V fuel task filp sym = Returns pre_name).
  { repeat (apply elem_of_cons in Hin as [-> | Hin]; [split; [reflexivity | eexists; reflexivity] |]).
    apply elem_of_nil in Hin. contradiction. }
  destruct Hb as (Hb & pre_name & Hpre).
  rewrite (resolver_single_symbol V context fuel task filp dentry ops sym_addr
             Hd Ho Hp table sym Hs Ht Hb).
  rewrite Hpre. simpl. rewrite ino_or_zero_spec.
  destruct Hfail as [-> | (inode & -> & Hi)]; simpl.
  - split; reflexivity.
  - rewrite Hi. split; reflexivity.
Qed.

Lemma path_for_file_unreadable_inode_witness :
  path_for_file (Arena.view Desk.snap) 10 Desk.symbols 100 235
  = Raises InvalidAddressException /\
  ino_or_zero (Arena.view Desk.snap) 35 = Returns 0.
Proof.
  apply (path_for_file_unreadable_inode (Arena.view Desk.snap) Desk.symbols 10 100 235 35 500
           (TypedPtr 0x1000 "linux!pointer") "linux" "sockfs_dname");
    try first [reflexivity | discriminate].
  - apply elem_of_cons. left. reflexivity.
  - right. exists 45. split; reflexivity.
Defined.

(** ** When the walk gives the empty string *)

Section Segments.

Variable V : View.

(** A pass either meets an empty name and leaves [ret_path] alone, or puts
    one new segment in front of it. *)
Lemma loop_body_ret_path ret_path dentry vfsmnt ret_path' next :
  loop_body V ret_path dentry vfsmnt = Returns (ret_path', next) ->
  (path V dentry = Some "" /\ ret_path' = ret_path /\ next = Break) \/
  (exists n, path V dentry = Some n /\ n <> "" /\
             ret_path' = PyStr.strip "/" n :: ret_path).
Proof.
  unfold loop_body.
  destruct (path V dentry) as [dname |]; simpl; [| discriminate].
  destruct (decide (dname = "")) as [-> | Hne].
  - intros H. injection H as <- <-. left. auto.
  - intros H. right. exists dname. split; [reflexivity |]. split; [exact Hne |].
    destruct (at_mount_boundary V dentry vfsmnt) as [[|] | e |]; simpl in H;
      try discriminate.
    + destruct (get_mnt_parent V vfsmnt) as [mp |]; simpl in H; [| discriminate].
      destruct (decide (mp = vfsmnt)); [congruence |].
      destruct (get_mnt_mountpoint V vfsmnt); simpl in H; [congruence | discriminate].
    + destruct (d_parent V dentry); simpl in H; [congruence | discriminate].
Qed.

(** The loop only ever adds segments in front of [ret_path]. *)
Lemma walk_loop_grows fuel : forall rdentry rmnt ret_path dentry vfsmnt ret_path' dentry',
  walk_loop V fuel rdentry rmnt ret_path dentry vfsmnt = Returns (ret_path', dentry') ->
  exists front, ret_path' = (front ++ ret_path)%list.
Proof.
  induction fuel as [| fuel IH]; intros rd rm acc d v acc' d' H; [discriminate |].
  simpl in H. destruct (decide _) as [Hc | _].
  - destruct (loop_body V acc d v) as [[acc1 next] | e |] eqn:Hb; simpl in H;
      try discriminate.
    assert (Hg : exists front, acc1 = (front ++ acc)%list).
    { apply loop_body_ret_path in Hb as [(_ & -> & _) | (n & _ & _ & ->)].
      - exists []. reflexivity.
      - exists [PyStr.strip "/" n]. reflexivity. }
    destruct Hg as [front1 ->].
    destruct next as [| d1 v1].
    + injection H as <- _. eauto.
    + apply IH in H as [front ->]. exists (front ++ front1)%list.
      rewrite app_assoc. reflexivity.
  - injection H as <- _. exists []. reflexivity.
Qed.

End Segments.

(** The walk returns the empty string in two cases only: the start pair is
    the root pair, or the name of the start entry reads as empty. Whatever
    else it returns is not empty. *)
Theorem walk_empty_iff (V : View) (fuel : nat) (rdentry rmnt dentry vfsmnt : addr) :
  _do_get_path V (S fuel) rdentry rmnt dentry vfsmnt = Returns "" <->
  (dentry = rdentry /\ vfsmnt = rmnt) \/ path V dentry = Some "".
Proof.
  unfold _do_get_path. split.
  - destruct (walk_loop V (S fuel) rdentry rmnt [] dentry vfsmnt)
      as [[acc d'] | e |] eqn:Hl; simpl; try discriminate.
    intros H. apply post_process_empty_iff in H. subst acc.
    simpl in Hl. destruct (decide _) as [Hc | Hc].
    + right.
      destruct (loop_body V [] dentry vfsmnt) as [[acc1 next] | e |] eqn:Hb;
        simpl in Hl; try discriminate.
      apply loop_body_ret_path in Hb as [(Hp & _) | (n & _ & _ & ->)]; [exact Hp |].
      exfalso. destruct next as [| d1 v1].
      * discriminate.
      * apply walk_loop_grows in Hl as [front Hf].
        destruct front; discriminate.
    + left. split.
      * destruct (decide (dentry = rdentry)); [assumption | exfalso; auto].
      * destruct (decide (vfsmnt = rmnt)); [assumption | exfalso; auto].
  - intros [[-> ->] | Hp].
    + rewrite walk_loop_exit. reflexivity.
    + simpl. destruct (decide _) as [_ | _]; [| reflexivity].
      unfold loop_body. rewrite Hp. reflexivity.
Qed.

(** ** The shape of what the walk returns *)

Lemma drop_last_app_cons (p : string) (c : ascii) (r : string) :
  PyStr.drop_last (p ++ String c r) = p ++ PyStr.drop_last (String c r).
Proof.
  induction p as [| a p IH]; [reflexivity |].
  rewrite !append_cons. simpl PyStr.drop_last at 1. rewrite IH.
  destruct p; reflexivity.
Qed.

Lemma startswith_app (p x : string) : PyStr.startswith p (p ++ x) = true.
Proof.
  unfold PyStr.startswith. induction p as [| a p IH].
  - destruct x; reflexivity.
  - rewrite append_cons. simpl. destruct (ascii_dec a a); [exact IH | congruence].
Qed.

Lemma append_assoc (s t u : string) : (s ++ t) ++ u = s ++ (t ++ u).
Proof.
  induction s as [| a s IH]; [reflexivity |].
  rewrite !append_cons, IH. reflexivity.
Qed.

Lemma remove_app (c : ascii) (s t : string) :
  PyStr.remove c (s ++ t) = PyStr.remove c s ++ PyStr.remove c t.
Proof.
  induction s as [| a s IH]; [reflexivity |].
  rewrite append_cons. simpl. destruct (Ascii.eqb a c); [exact IH |].
  rewrite append_cons, IH. reflexivity.
Qed.

Lemma post_process_shape (V : View) (ret_path : list string) (dentry : addr) (s : string) :
  post_process V ret_path dentry = Returns s ->
  s = "" \/ s = "inotify" \/ PyStr.startswith "/" s = true \/
  PyStr.startswith "socket:" s = true \/ PyStr.startswith "pipe:" s = true.
Proof.
  unfold post_process. destruct ret_path as [| p l]; [intros H; left; congruence |].
  set (ret_val := joined (p :: l)).
  assert (Hsp : forall P, PyStr.startswith P ret_val = true ->
                          P = "socket:" \/ P = "pipe:" ->
                          forall t,
                            (if negb (PyStr.contains "]" ret_val)
                             then ino ← ino_or_zero V dentry;
                                  Returns (PyStr.drop_last ret_val ++ ":["
                                           ++ PyStr.format_d ino ++ "]")
                             else Returns (PyStr.remove "/" ret_val)) = Returns t ->
                            PyStr.startswith P t = true).
  { intros P HP Hwhich t. apply startswith_shape in HP as [r Hr]. rewrite Hr.
    destruct (negb _).
    - destruct (ino_or_zero_returns V dentry) as [ino ->]. simpl.
      intros H. injection H as <-.
      destruct r as [| c r].
      + destruct Hwhich as [-> | ->]; reflexivity.
      + rewrite drop_last_app_cons, append_assoc. apply startswith_app.
    - intros H. injection H as <-. rewrite remove_app.
      replace (PyStr.remove "/" P) with P by (destruct Hwhich as [-> | ->]; reflexivity).
      apply startswith_app. }
  destruct (PyStr.startswith "socket:" ret_val) eqn:H1; simpl.
  - intros H. right. right. right. left. apply (Hsp "socket:" H1 (or_introl eq_refl) s H).
  - destruct (PyStr.startswith "pipe:" ret_val) eqn:H2; simpl.
    + intros H. right. right. right. right. apply (Hsp "pipe:" H2 (or_intror eq_refl) s H).
    + destruct (decide _) as [_ | Hn]; intros H; injection H as <-.
      * right. right. left. apply startswith_app.
      * right. left. apply (dec_stable Hn).
Qed.

(** Whatever the walk returns is the empty string, the word ["inotify"], a
    string that begins with ['/'], or one that begins with ["socket:"] or
    ["pipe:"]. *)
Theorem walk_result_shape (V : View) (fuel : nat) (rdentry rmnt dentry vfsmnt : addr)
        (s : string) :
  _do_get_path V fuel rdentry rmnt dentry vfsmnt = Returns s ->
  s = "" \/ s = "inotify" \/ PyStr.startswith "/" s = true \/
  PyStr.startswith "socket:" s = true \/ PyStr.startswith "pipe:" s = true.
Proof.
  unfold _do_get_path.
  destruct (walk_loop V fuel rdentry rmnt [] dentry vfsmnt) as [[acc d'] | e |];
    simpl; try discriminate.
  apply post_process_shape.
Qed.

Lemma walk_result_shape_witness :
  "socket:123:[2]" = "" \/ "socket:123:[2]" = "inotify" \/
  PyStr.startswith "/" "socket:123:[2]" = true \/
  PyStr.startswith "socket:" "socket:123:[2]" = true \/
  PyStr.startswith "pipe:" "socket:123:[2]" = true.
Proof.
  apply (walk_result_shape (Arena.view Samples.tree) 10 1 50 6 50 "socket:123:[2]").
  vm_compute. reflexivity.
Defined.

(** ** Across a mount boundary, and outside the process root *)

Section Climbing.

Variable V : View.

Lemma below_climb rdentry rmnt : forall names dentry,
  below V rdentry rmnt dentry names -> climb V rdentry rmnt rdentry rmnt dentry names.
Proof.
  induction names as [| n names IH]; intros d Hb; [exact Hb |].
  destruct Hb as (Hd & Hn & Hr & p & Hp & Hdp & Hb).
  simpl. repeat split; auto. exists p. auto.
Qed.

Lemma below_climb_other_mount rdentry rmnt stop vfsmnt : vfsmnt <> rmnt ->
  forall names dentry,
    below V stop vfsmnt dentry names -> climb V rdentry rmnt stop vfsmnt dentry names.
Proof.
  intros Hv. induction names as [| n names IH]; intros d Hb; [exact Hb |].
  destruct Hb as (Hd & Hn & Hr & p & Hp & Hdp & Hb).
  simpl. repeat split; auto. exists p. auto.
Qed.

(** Climbing a chain takes one pass per entry and gathers the names. *)
Lemma walk_loop_climb rdentry rmnt stop vfsmnt : forall names ret_path dentry fuel,
  climb V rdentry rmnt stop vfsmnt dentry names ->
  Forall segment names ->
  walk_loop V (length names + fuel) rdentry rmnt ret_path dentry vfsmnt
  = walk_loop V fuel rdentry rmnt (rev names ++ ret_path)%list stop vfsmnt.
Proof.
  induction names as [| n names IH]; intros acc d fuel Hc Hs.
  - simpl in Hc. subst d. reflexivity.
  - destruct Hc as (Hc & Hn & (mr & Hr & Hmr) & p & Hp & Hdp & Hb).
    apply Forall_cons in Hs as [[Hne Hst] Hs].
    change (length (n :: names) + fuel)%nat with (S (length names + fuel)).
    rewrite (walk_loop_continue V (length names + fuel) rdentry rmnt acc d vfsmnt
               (PyStr.strip "/" n :: acc) p vfsmnt Hc);
      [| eapply loop_body_ascends; eauto].
    rewrite Hst, (IH (n :: acc) p fuel Hb Hs).
    simpl. rewrite <- app_assoc. reflexivity.
Qed.

(** A pass over the root of a mounted filesystem goes to the mountpoint in
    the parent mount. *)
Lemma loop_body_crosses ret_path dentry vfsmnt n mnt_parent mountpoint :
  path V dentry = Some n -> n <> "" ->
  get_mnt_root V vfsmnt = Some dentry ->
  get_mnt_parent V vfsmnt = Some mnt_parent -> mnt_parent <> vfsmnt ->
  get_mnt_mountpoint V vfsmnt = Some mountpoint ->
  loop_body V ret_path dentry vfsmnt
  = Returns (PyStr.strip "/" n :: ret_path, Continue mountpoint mnt_parent).
Proof.
  intros Hn Hne Hr Hp Hpv Hm. unfold loop_body, at_mount_boundary.
  rewrite Hn. simpl. rewrite decide_False by assumption.
  rewrite Hr. simpl. rewrite decide_True by reflexivity. simpl.
  rewrite Hp. simpl. rewrite decide_False by assumption.
  rewrite Hm. reflexivity.
Qed.

(** A pass over the root of a mount that is its own parent leaves the loop. *)
Lemma loop_body_global_root ret_path dentry vfsmnt n :
  path V dentry = Some n -> n <> "" ->
  get_mnt_root V vfsmnt = Some dentry ->
  get_mnt_parent V vfsmnt = Some vfsmnt ->
  loop_body V ret_path dentry vfsmnt = Returns (PyStr.strip "/" n :: ret_path, Break).
Proof.
  intros Hn Hne Hr Hp. unfold loop_body, at_mount_boundary.
  rewrite Hn. simpl. rewrite decide_False by assumption.
  rewrite Hr. simpl. rewrite decide_True by reflexivity. simpl.
  rewrite Hp. simpl. rewrite decide_True by reflexivity. reflexivity.
Qed.

(** The tail on segments that are plain names or empty. *)
Lemma post_process_plain (front back : list string) (dentry : addr) :
  Forall segment front -> Forall segment back ->
  (front ++ back)%list <> [] ->
  PyStr.startswith "socket:" (PyStr.join "/" (front ++ back))
  || PyStr.startswith "pipe:" (PyStr.join "/" (front ++ back)) = false ->
  PyStr.join "/" (front ++ back) <> "inotify" ->
  post_process V (front ++ "" :: back) dentry
  = Returns ("/" ++ PyStr.join "/" (front ++ back)).
Proof.
  intros Hf Hb Hne Hsp Hin.
  assert (Hj : joined (front ++ "" :: back) = PyStr.join "/" (front ++ back)).
  { unfold joined. rewrite filter_app, filter_cons_False by auto.
    rewrite !filter_nonempty_id; [reflexivity | |].
    - eapply Forall_impl; [exact Hb |]. intros n [Hn _]. exact Hn.
    - eapply Forall_impl; [exact Hf |]. intros n [Hn _]. exact Hn. }
  unfold post_process.
  destruct (front ++ "" :: back)%list as [| p l] eqn:E.
  - destruct front; discriminate.
  - rewrite Hj, Hsp. rewrite decide_True by assumption. reflexivity.
Qed.

End Climbing.

(** Crossing one mount boundary: the start entry lies below the root of a
    filesystem mounted on an entry of the root mount, and that mountpoint lies
    below the root entry. When the stored names are non-empty with no ['/'] at
    either end, the mounted root's name strips to nothing, and the names
    joined with ['/'] neither start with ["socket:"] or ["pipe:"] nor equal
    ["inotify"], the walk returns ['/'] followed by the names from the root
    entry down to the mountpoint and then the names inside the mounted
    filesystem, joined with ['/']: the mounted root leaves no segment and the
    mountpoint's name appears once. *)
Theorem walk_across_mount (V : View) (fuel : nat)
        (rdentry rmnt dentry vfsmnt mnt_root mountpoint : addr)
        (root_name : string) (outer inner : list string) :
  vfsmnt <> rmnt ->
  below V mnt_root vfsmnt dentry (rev inner) -> Forall segment inner ->
  get_mnt_root V vfsmnt = Some mnt_root ->
  path V mnt_root = Some root_name -> root_name <> "" ->
  PyStr.strip "/" root_name = "" ->
  get_mnt_parent V vfsmnt = Some rmnt ->
  get_mnt_mountpoint V vfsmnt = Some mountpoint ->
  below V rdentry rmnt mountpoint (rev outer) -> Forall segment outer ->
  (outer ++ inner)%list <> [] ->
  PyStr.startswith "socket:" (PyStr.join "/" (outer ++ inner))
  || PyStr.startswith "pipe:" (PyStr.join "/" (outer ++ inner)) = false ->
  PyStr.join "/" (outer ++ inner) <> "inotify" ->
  (length outer + length inner + 1 < fuel)%nat ->
  _do_get_path V fuel rdentry rmnt dentry vfsmnt
  = Returns ("/" ++ PyStr.join "/" (outer ++ inner)).
Proof.
  intros Hv Hin Hsin Hr Hn Hne Hst Hp Hm Hout Hsout Hnil Hsp Hino Hf.
  unfold _do_get_path.
  replace fuel
    with (length (rev inner) + S (length (rev outer) + S (fuel - length outer - length inner - 2)))%nat
    by (rewrite !length_rev; lia).
  rewrite (walk_loop_climb V rdentry rmnt mnt_root vfsmnt (rev inner) [] dentry);
    [| apply below_climb_other_mount; assumption | apply Forall_rev; assumption].
  rewrite rev_involutive, app_nil_r.
  rewrite (walk_loop_continue V _ rdentry rmnt inner mnt_root vfsmnt
             (PyStr.strip "/" root_name :: inner) mountpoint rmnt);
    [| right; assumption | apply loop_body_crosses; auto].
  rewrite Hst.
  rewrite (walk_loop_climb V rdentry rmnt rdentry rmnt (rev outer) ("" :: inner) mountpoint);
    [| apply below_climb; assumption | apply Forall_rev; assumption].
  rewrite rev_involutive, walk_loop_exit. simpl.
  apply post_process_plain; assumption.
Qed.

Lemma walk_across_mount_witness :
  _do_get_path (Arena.view Samples.tree) 10 1 50 21 51 = Returns "/home/alice/data".
Proof.
  apply (walk_across_mount (Arena.view Samples.tree) 10 1 50 21 51 20 3 "/"
           ["home"; "alice"] ["data"]);
    try first [reflexivity | discriminate | (simpl; lia)
              | (repeat constructor; discriminate)].
  all: simpl; repeat first [reflexivity | discriminate | split | eexists].
Defined.

(** A file outside the process root: the start entry lies below the root of a
    mount that is its own parent, and the root pair is not met on the way up.
    When the stored names are non-empty with no ['/'] at either end, the
    global root's name strips to nothing, and the names joined with ['/']
    neither start with ["socket:"] or ["pipe:"] nor equal ["inotify"], the
    walk stops at that global root and returns ['/'] followed by the names
    from there down to the file, joined with ['/']. *)
Theorem walk_outside_root (V : View) (fuel : nat)
        (rdentry rmnt dentry vfsmnt mnt_root : addr)
        (root_name : string) (names : list string) :
  climb V rdentry rmnt mnt_root vfsmnt dentry (rev names) -> Forall segment names ->
  mnt_root <> rdentry \/ vfsmnt <> rmnt ->
  get_mnt_root V vfsmnt = Some mnt_root ->
  get_mnt_parent V vfsmnt = Some vfsmnt ->
  path V mnt_root = Some root_name -> root_name <> "" ->
  PyStr.strip "/" root_name = "" ->
  names <> [] ->
  PyStr.startswith "socket:" (PyStr.join "/" names)
  || PyStr.startswith "pipe:" (PyStr.join "/" names) = false ->
  PyStr.join "/" names <> "inotify" ->
  (length names < fuel)%nat ->
  _do_get_path V fuel rdentry rmnt dentry vfsmnt = Returns ("/" ++ PyStr.join "/" names).
Proof.
  intros Hc Hs Hcond Hr Hp Hn Hne Hst Hnil Hsp Hino Hf.
  unfold _do_get_path.
  replace fuel with (length (rev names) + S (fuel - length names - 1))%nat
    by (rewrite length_rev; lia).
  rewrite (walk_loop_climb V rdentry rmnt mnt_root vfsmnt (rev names) [] dentry);
    [| assumption | apply Forall_rev; assumption].
  rewrite rev_involutive, app_nil_r.
  rewrite (walk_loop_break V _ rdentry rmnt names mnt_root vfsmnt
             (PyStr.strip "/" root_name :: names) Hcond);
    [| apply loop_body_global_root; assumption].
  rewrite Hst. simpl.
  apply (post_process_plain V [] names mnt_root); auto.
Qed.

Lemma walk_outside_root_witness :
  _do_get_path (Arena.view Samples.tree) 10 2 50 9 50 = Returns "/shm".
Proof.
  apply (walk_outside_root (Arena.view Samples.tree) 10 2 50 9 50 1 "/" ["shm"]);
    try first [reflexivity | discriminate | (simpl; lia)
              | (repeat constructor; discriminate)].
  all: simpl; repeat first [reflexivity | discriminate | (left; discriminate) | split | eexists].
Defined.

(** ** The generator when a resolution fails *)

Lemma yielded_gen_then {A : Type} (l : list A) (g : gen A) :
  yielded (gen_then l g) = (l ++ yielded g)%list.
Proof. induction l as [| a l IH]; simpl; [reflexivity | rewrite IH; reflexivity]. Qed.

Section GeneratorFacts.

Variable V : View.
Variable context : ContextInterface.
Variables (fuel : nat) (task : addr).

(** The loop over the slots stops at the first slot whose resolution raises. *)
Lemma for_fds_aborts (path_of : addr -> string) (filp : addr) (rest : list addr) (e : exn) :
  filp <> 0 ->
  path_for_file V fuel context task filp = Raises e ->
  forall before fd_num,
    (forall f, f ∈ before -> f <> 0 ->
               path_for_file V fuel context task f = Returns (path_of f)) ->
    for_fds V fuel context task fd_num (before ++ filp :: rest)
    = gen_then (open_descriptors path_of fd_num before) (Propagates e).
Proof.
  intros Hn He. induction before as [| f before IH]; intros fd_num Hp.
  - simpl. rewrite decide_True by exact Hn. rewrite He. reflexivity.
  - assert (Hp' : forall g, g ∈ before -> g <> 0 ->
                            path_for_file V fuel context task g = Returns (path_of g)).
    { intros g Hg. apply Hp. apply elem_of_cons. auto. }
    simpl. unfold open_descriptors. simpl.
    destruct (decide (f <> 0)) as [Hf | Hf].
    + rewrite (Hp f) by (auto; apply elem_of_cons; auto). simpl.
      rewrite filter_cons_True by exact Hf. simpl.
      rewrite (IH (S fd_num) Hp'). reflexivity.
    + rewrite filter_cons_False by exact Hf.
      rewrite (IH (S fd_num) Hp'). reflexivity.
Qed.

(** Indices yielded by the loop over the slots ascend, whatever happens. *)
Lemma for_fds_ascending : forall fds fd_num,
  StronglySorted lt ((fun t : nat * addr * string => t.1.1)
                       <$> yielded (for_fds V fuel context task fd_num fds)).
Proof.
  induction fds as [| f fds IH]; intros fd_num; [constructor |].
  simpl. destruct (decide (f <> 0)) as [Hf | Hf]; [| apply IH].
  destruct (path_for_file V fuel context task f) as [full_path | e |]; simpl;
    try constructor.
  - apply IH.
  - apply Forall_fmap, Forall_forall. intros [[i filp] p] Hin. simpl.
    apply for_fds_yielded_sound in Hin as [Hle _]. lia.
Qed.

End GeneratorFacts.

(** A path resolution that raises ends the enumeration: the triples of the
    non-null slots in front of the failing slot are yielded, then the
    exception reaches the consumer, and no later slot is looked at. *)
Theorem generator_aborts_on_raise (V : View) (context : ContextInterface) (fuel : nat)
        (symbol_table : string) (task fd_table : addr) (max_fds : Z)
        (before : list addr) (filp : addr) (rest : list addr)
        (path_of : addr -> string) (e : exn) :
  get_fds V task = Some fd_table -> fd_table <> 0 ->
  get_max_fds V task = Some max_fds -> (max_fds <= 500000)%Z ->
  array_of_pointers V fd_table max_fds (symbol_table ++ "!file")
  = Some (before ++ filp :: rest)%list ->
  (forall f, f ∈ before -> f <> 0 ->
             path_for_file V fuel context task f = Returns (path_of f)) ->
  filp <> 0 ->
  path_for_file V fuel context task filp = Raises e ->
  files_descriptors_for_process V fuel context symbol_table task
  = gen_then (open_descriptors path_of 0 before) (Propagates e) /\
  yielded (files_descriptors_for_process V fuel context symbol_table task)
  = open_descriptors path_of 0 before.
Proof.
  intros Hf Hn Hm Hle Ha Hp Hfn He.
  assert (E : files_descriptors_for_process V fuel context symbol_table task
              = gen_then (open_descriptors path_of 0 before) (Propagates e)).
  { unfold files_descriptors_for_process.
    rewrite Hf. simpl. rewrite decide_False by assumption.
    rewrite Hm. simpl. rewrite decide_False by lia.
    change (symbol_table ++ String BANG "file") with (symbol_table ++ "!file").
    rewrite Ha. simpl. apply for_fds_aborts; assumption. }
  split; [exact E |].
  rewrite E, yielded_gen_then. simpl. apply app_nil_r.
Qed.

Lemma generator_aborts_on_raise_witness :
  files_descriptors_for_process (Arena.view Desk.snap) 10 Desk.symbols "linux" 100
  = Yield (0%nat, 203, "/tmp/log") (Propagates InvalidAddressException).
Proof.
  apply (generator_aborts_on_raise (Arena.view Desk.snap) Desk.symbols 10 "linux" 100 300 4%Z
           [203] 235 [0; 230] (fun _ => "/tmp/log") InvalidAddressException);
    try first [reflexivity | discriminate | lia].
  intros f Hin _. apply elem_of_cons in Hin as [-> | Hin]; [reflexivity |].
  apply elem_of_nil in Hin. contradiction.
Defined.

(** Every triple the generator yields, even when it later raises or a
    resolution fails, stands for a slot of the decoded array that is not null,
    carries that slot's index and the path resolved for it; and the table
    address was not null and the declared maximum at most 500000. *)
Theorem yielded_are_open_slots (V : View) (context : ContextInterface) (fuel : nat)
        (symbol_table : string) (task : addr) (i : nat) (filp : addr) (p : string) :
  (i, filp, p) ∈ yielded (files_descriptors_for_process V fuel context symbol_table task) ->
  exists fd_table max_fds fds,
    get_fds V task = Some fd_table /\ fd_table <> 0 /\
    get_max_fds V task = Some max_fds /\ (max_fds <= 500000)%Z /\
    array_of_pointers V fd_table max_fds (symbol_table ++ "!file") = Some fds /\
    fds !! i = Some filp /\ filp <> 0 /\
    path_for_file V fuel context task filp = Returns p.
Proof.
  unfold files_descriptors_for_process.
  destruct (get_fds V task) as [fd_table |]; simpl;
    [| intros H; apply elem_of_nil in H; contradiction].
  destruct (decide (fd_table = 0)) as [_ | Hn];
    [intros H; apply elem_of_nil in H; contradiction |].
  destruct (get_max_fds V task) as [max_fds |]; simpl;
    [| intros H; apply elem_of_nil in H; contradiction].
  destruct (decide (max_fds > 500000)%Z) as [_ | Hm];
    [intros H; apply elem_of_nil in H; contradiction |].
  change (symbol_table ++ String BANG "file") with (symbol_table ++ "!file").
  destruct (array_of_pointers V fd_table max_fds (symbol_table ++ "!file")) as [fds |]
    eqn:Ha; simpl; [| intros H; apply elem_of_nil in H; contradiction].
  intros H. apply for_fds_yielded_sound in H as (_ & Hl & Hf & Hp).
  rewrite Nat.sub_0_r in Hl.
  exists fd_table, max_fds, fds.
  split; [reflexivity |]. split; [exact Hn |]. split; [reflexivity |].
  split; [lia |]. split; [exact Ha |]. auto.
Qed.

Lemma yielded_are_open_slots_witness :
  exists fd_table max_fds fds,
    get_fds (Arena.view Samples.tree) 100 = Some fd_table /\ fd_table <> 0 /\
    get_max_fds (Arena.view Samples.tree) 100 = Some max_fds /\ (max_fds <= 500000)%Z /\
    array_of_pointers (Arena.view Samples.tree) fd_table max_fds ("linux" ++ "!file")
    = Some fds /\
    fds !! 4%nat = Some 205 /\ 205 <> 0 /\
    path_for_file (Arena.view Samples.tree) 10 Samples.kernel_symbols 100 205
    = Returns "inotify".
Proof.
  apply (yielded_are_open_slots (Arena.view Samples.tree) Samples.kernel_symbols 10
           "linux" 100 4 205 "inotify").
  vm_compute. apply list_elem_of_further, list_elem_of_here.
Defined.

(** The indices of the triples the generator yields ascend strictly, on every
    input and however the enumeration ends. *)
Theorem yielded_indices_ascend (V : View) (context : ContextInterface) (fuel : nat)
        (symbol_table : string) (task : addr) :
  StronglySorted lt
    ((fun t : nat * addr * string => t.1.1)
       <$> yielded (files_descriptors_for_process V fuel context symbol_table task)).
Proof.
  unfold files_descriptors_for_process.
  destruct (get_fds V task) as [fd_table |]; simpl; [| constructor].
  destruct (decide (fd_table = 0)); [constructor |].
  destruct (get_max_fds V task) as [max_fds |]; simpl; [| constructor].
  destruct (decide (max_fds > 500000)%Z); [constructor |].
  destruct (array_of_pointers V fd_table max_fds _) as [fds |]; simpl; [| constructor].
  apply for_fds_ascending.
Qed.

(** ** An unreadable entry on the way up *)

(** An entry whose name cannot be read stops the walk with
    [InvalidAddressException], however many segments had been gathered below
    it; only a name that reads as empty ends the walk with a result. *)
Theorem walk_raises_on_unreadable_entry (V : View) (fuel : nat)
        (rdentry rmnt dentry vfsmnt unreadable : addr) (names : list string) :
  climb V rdentry rmnt unreadable vfsmnt dentry (rev names) -> Forall segment names ->
  unreadable <> rdentry \/ vfsmnt <> rmnt ->
  path V unreadable = None ->
  (length names < fuel)%nat ->
  _do_get_path V fuel rdentry rmnt dentry vfsmnt = Raises InvalidAddressException.
Proof.
  intros Hc Hs Hcond Hp Hf. unfold _do_get_path.
  replace fuel with (length (rev names) + S (fuel - length names - 1))%nat
    by (rewrite length_rev; lia).
  rewrite (walk_loop_climb V rdentry rmnt unreadable vfsmnt (rev names) [] dentry);
    [| assumption | apply Forall_rev; assumption].
  rewrite (walk_loop_raise V _ rdentry rmnt _ unreadable vfsmnt InvalidAddressException Hcond);
    [reflexivity |].
  unfold loop_body. rewrite Hp. reflexivity.
Qed.

Lemma walk_raises_on_unreadable_entry_witness :
  _do_get_path (Arena.view Desk.snap) 10 1 50 4 50 = Raises InvalidAddressException.
Proof.
  apply (walk_raises_on_unreadable_entry (Arena.view Desk.snap) 10 1 50 4 50 99 ["cache"]);
    try first [reflexivity | (simpl; lia) | (repeat constructor; discriminate)].
  all: simpl; repeat first [reflexivity | discriminate | (left; discriminate) | split | eexists].
Defined.

(** ** The generator, complete and cut short *)

(** C4, the claim as written fails: the decoded array has three slots that
    are not null, the table address is not null and the declared maximum is 4;
    the resolution for the second of them raises, and the generator yields
    one triple, not three. *)
Lemma generator_stops_at_raising_slot :
  (let V := Arena.view Desk.snap in
   get_fds V 100 = Some 300 /\
   get_max_fds V 100 = Some 4%Z /\
   array_of_pointers V 300 4%Z "linux!file" = Some [203; 235; 0; 230] /\
   length (filter (fun filp : addr => filp <> 0) [203; 235; 0; 230]) = 3%nat /\
   files_descriptors_for_process V 10 Desk.symbols "linux" 100
   = Yield (0%nat, 203, "/tmp/log") (Propagates InvalidAddressException)).
Proof. repeat split; vm_compute; reflexivity. Qed.

(** C4, amended: the generator yields nothing when the table address is null
    or when the declared maximum exceeds 500000. Otherwise it yields one
    triple (index, file reference, path) per non-null slot of the decoded
    array, in ascending index order and nothing for the null slots, for as
    long as path resolution returns: exactly one triple for each non-null slot
    when every resolution returns, and only those of the non-null slots in
    front of the first slot whose resolution raises, where the exception ends
    the enumeration. *)
Theorem files_descriptors_for_process_yields (V : View) (context : ContextInterface)
        (fuel : nat) (symbol_table : string) (task : addr) :
  (get_fds V task = Some 0 ->
   files_descriptors_for_process V fuel context symbol_table task = StopIteration) /\
  (forall fd_table max_fds,
      get_fds V task = Some fd_table ->
      get_max_fds V task = Some max_fds ->
      (max_fds > 500000)%Z ->
      files_descriptors_for_process V fuel context symbol_table task = StopIteration) /\
  (forall fd_table max_fds fds path_of,
      get_fds V task = Some fd_table -> fd_table <> 0 ->
      get_max_fds V task = Some max_fds -> (max_fds <= 500000)%Z ->
      array_of_pointers V fd_table max_fds (symbol_table ++ "!file") = Some fds ->
      (forall filp, filp ∈ fds -> filp <> 0 ->
                    path_for_file V fuel context task filp = Returns (path_of filp)) ->
      files_descriptors_for_process V fuel context symbol_table task
      = gen_of_list (open_descriptors path_of 0 fds) /\
      (forall i filp p,
          (i, filp, p) ∈ open_descriptors path_of 0 fds <->
          fds !! i = Some filp /\ filp <> 0 /\ p = path_of filp) /\
      length (open_descriptors path_of 0 fds)
      = length (filter (fun filp : addr => filp <> 0) fds) /\
      StronglySorted lt ((fun t : nat * addr * string => t.1.1)
                           <$> open_descriptors path_of 0 fds)) /\
  (forall fd_table max_fds before filp rest path_of e,
      get_fds V task = Some fd_table -> fd_table <> 0 ->
      get_max_fds V task = Some max_fds -> (max_fds <= 500000)%Z ->
      array_of_pointers V fd_table max_fds (symbol_table ++ "!file")
      = Some (before ++ filp :: rest)%list ->
      (forall f, f ∈ before -> f <> 0 ->
                 path_for_file V fuel context task f = Returns (path_of f)) ->
      filp <> 0 ->
      path_for_file V fuel context task filp = Raises e ->
      files_descriptors_for_process V fuel context symbol_table task
      = gen_then (open_descriptors path_of 0 before) (Propagates e)).
Proof.
  unfold files_descriptors_for_process. split; [| split; [| split]].
  - intros ->. reflexivity.
  - intros fd_table max_fds -> Hm Hgt. simpl.
    destruct (decide (fd_table = 0)); [reflexivity |].
    rewrite Hm. simpl. rewrite decide_True by exact Hgt. reflexivity.
  - intros fd_table max_fds fds path_of Hf Hn Hm Hle Ha Hp.
    split; [| split; [| split]].
    + rewrite Hf. simpl. rewrite decide_False by assumption.
      rewrite Hm. simpl. rewrite decide_False by lia.
      change (symbol_table ++ String BANG "file") with (symbol_table ++ "!file").
      rewrite Ha. simpl. apply for_fds_yields. assumption.
    + intros i filp p. apply open_descriptors_elem.
    + apply open_descriptors_length.
    + apply open_descriptors_ascending.
  - intros fd_table max_fds before filp rest path_of e Hf Hn Hm Hle Ha Hp Hfn He.
    rewrite Hf. simpl. rewrite decide_False by assumption.
    rewrite Hm. simpl. rewrite decide_False by lia.
    change (symbol_table ++ String BANG "file") with (symbol_table ++ "!file").
    rewrite Ha. simpl. apply for_fds_aborts; assumption.
Qed.

Lemma files_descriptors_for_process_yields_witness :
  files_descriptors_for_process (Arena.view Samples.tree) 10 Samples.kernel_symbols "linux" 100
  = Yield (1%nat, 204, "/home/alice/notes.txt")
      (Yield (4%nat, 205, "inotify")
         (Yield (7%nat, 206, "socket:123:[2]") StopIteration)) /\
  files_descriptors_for_process (Arena.view Samples.tree) 10 Samples.kernel_symbols "linux" 101
  = StopIteration /\
  files_descriptors_for_process (Arena.view Samples.tree) 10 Samples.kernel_symbols "linux" 102
  = StopIteration /\
  files_descriptors_for_process (Arena.view Desk.snap) 10 Desk.symbols "linux" 100
  = Yield (0%nat, 203, "/tmp/log") (Propagates InvalidAddressException).
Proof.
  split; [| split; [| split]].
  - pose (path_of := fun filp : addr =>
                       if decide (filp = 204) then "/home/alice/notes.txt"
                       else if decide (filp = 205) then "inotify"
                       else "socket:123:[2]").
    refine (proj1 (proj1 (proj2 (proj2 (files_descriptors_for_process_yields
                                          (Arena.view Samples.tree) Samples.kernel_symbols
                                          10 "linux" 100)))
                         300 10%Z [0; 204; 0; 0; 205; 0; 0; 206; 0; 0] path_of
                         _ _ _ _ _ _)).
    + reflexivity.
    + discriminate.
    + reflexivity.
    + lia.
    + reflexivity.
    + intros filp Hin Hn.
      repeat (apply elem_of_cons in Hin as [-> | Hin];
              [first [contradiction | vm_compute; reflexivity] |]).
      apply elem_of_nil in Hin. contradiction.
  - apply (proj1 (files_descriptors_for_process_yields
                    (Arena.view Samples.tree) Samples.kernel_symbols 10 "linux" 101)).
    reflexivity.
  - apply (proj1 (proj2 (files_descriptors_for_process_yields
                           (Arena.view Samples.tree) Samples.kernel_symbols 10 "linux" 102))
                 300 600000%Z); [reflexivity | reflexivity | lia].
  - refine (proj2 (proj2 (proj2 (files_descriptors_for_process_yields
                                   (Arena.view Desk.snap) Desk.symbols 10 "linux" 100)))
                  300 4%Z [203] 235 [0; 230] (fun _ => "/tmp/log") InvalidAddressException
                  _ _ _ _ _ _ _ _); try first [reflexivity | discriminate | lia].
    intros f Hin _. apply elem_of_cons in Hin as [-> | Hin]; [reflexivity |].
    apply elem_of_nil in Hin. contradiction.
Defined.

(** ** Whose inode number is appended *)

(** C10, the claim as written fails: the entry [pipe:x] is the root of a mount
    that is mounted on that same entry. The walk crosses the mount boundary,
    the loop is left with the [dentry] variable on the start entry again, and
    the number appended is the start entry's own, 4321. *)
Lemma crossing_back_to_the_start_entry :
  (let V := Arena.view BindMount.snap in
   loop_body V [] 2 51 = Returns (["pipe:x"], Continue 2 50) /\
   walk_loop V 10 2 50 [] 2 51 = Returns (["pipe:x"], 2) /\
   ino_or_zero V 2 = Returns 4321 /\
   _do_get_path V 10 2 50 2 51 = Returns "pipe::[4321]").
Proof. repeat split; vm_compute; reflexivity. Qed.

(** C10, amended: the number appended to a ["socket:"] or ["pipe:"] value is
    read through the [dentry] variable as the loop leaves it, the last entry
    the walk examined, which is not necessarily the start entry. When the walk
    goes up once from the start entry to the root entry and stops, the number
    is the root entry's, a different entry. When it crosses a mount boundary
    to the mountpoint and stops there, the number is the mountpoint's, which
    belongs to a different entry unless the mountpoint is the start entry
    itself. *)
Theorem inode_number_of_exit_entry (V : View) (fuel : nat) (rdentry rmnt dentry : addr)
        (n : string) :
  (forall vfsmnt ret_path exit_dentry,
      walk_loop V fuel rdentry rmnt [] dentry vfsmnt = Returns (ret_path, exit_dentry) ->
      PyStr.startswith "socket:" (joined ret_path)
      || PyStr.startswith "pipe:" (joined ret_path) = true ->
      PyStr.contains "]" (joined ret_path) = false ->
      exists ino,
        ino_or_zero V exit_dentry = Returns ino /\
        _do_get_path V fuel rdentry rmnt dentry vfsmnt =
        Returns (PyStr.drop_last (joined ret_path) ++ ":[" ++ PyStr.format_d ino ++ "]")) /\
  (path V dentry = Some n -> n <> "" ->
   PyStr.startswith "socket:" (joined [PyStr.strip "/" n])
   || PyStr.startswith "pipe:" (joined [PyStr.strip "/" n]) = true ->
   PyStr.contains "]" (joined [PyStr.strip "/" n]) = false ->
   (forall mnt_root,
       get_mnt_root V rmnt = Some mnt_root -> dentry <> mnt_root ->
       d_parent V dentry = Some rdentry -> dentry <> rdentry ->
       exists ino,
         ino_or_zero V rdentry = Returns ino /\
         _do_get_path V (S (S fuel)) rdentry rmnt dentry rmnt =
         Returns (PyStr.drop_last (joined [PyStr.strip "/" n]) ++ ":["
                  ++ PyStr.format_d ino ++ "]")) /\
   (forall vfsmnt,
       vfsmnt <> rmnt ->
       get_mnt_root V vfsmnt = Some dentry ->
       get_mnt_parent V vfsmnt = Some rmnt ->
       get_mnt_mountpoint V vfsmnt = Some rdentry ->
       exists ino,
         ino_or_zero V rdentry = Returns ino /\
         _do_get_path V (S (S fuel)) rdentry rmnt dentry vfsmnt =
         Returns (PyStr.drop_last (joined [PyStr.strip "/" n]) ++ ":["
                  ++ PyStr.format_d ino ++ "]"))).
Proof.
  assert (Hgen : forall fuel' vfsmnt ret_path exit_dentry,
             walk_loop V fuel' rdentry rmnt [] dentry vfsmnt
             = Returns (ret_path, exit_dentry) ->
             PyStr.startswith "socket:" (joined ret_path)
             || PyStr.startswith "pipe:" (joined ret_path) = true ->
             PyStr.contains "]" (joined ret_path) = false ->
             exists ino,
               ino_or_zero V exit_dentry = Returns ino /\
               _do_get_path V fuel' rdentry rmnt dentry vfsmnt =
               Returns (PyStr.drop_last (joined ret_path) ++ ":["
                        ++ PyStr.format_d ino ++ "]")).
  { intros fuel' vfsmnt ret_path exit_dentry Hl Hsp Hc.
    destruct (ino_or_zero_returns V exit_dentry) as [ino Hi].
    exists ino. split; [assumption |].
    unfold _do_get_path. rewrite Hl. simpl.
    rewrite (post_process_appends V ret_path exit_dentry Hsp Hc), Hi. reflexivity. }
  split; [apply Hgen |].
  intros Hn Hne Hsp Hc. split.
  - intros mnt_root Hr Hmr Hp Hd.
    apply (Hgen (S (S fuel)) rmnt [PyStr.strip "/" n] rdentry); [| assumption | assumption].
    rewrite (walk_loop_continue V (S fuel) rdentry rmnt [] dentry rmnt
               [PyStr.strip "/" n] rdentry rmnt); [apply walk_loop_exit | auto |].
    apply (loop_body_ascends V [] dentry rmnt n mnt_root rdentry); assumption.
  - intros vfsmnt Hv Hr Hp Hm.
    apply (Hgen (S (S fuel)) vfsmnt [PyStr.strip "/" n] rdentry); [| assumption | assumption].
    rewrite (walk_loop_continue V (S fuel) rdentry rmnt [] dentry vfsmnt
               [PyStr.strip "/" n] rdentry rmnt); [apply walk_loop_exit | auto |].
    apply (loop_body_crosses V [] dentry vfsmnt n rmnt rdentry); auto.
Qed.

Lemma inode_number_of_exit_entry_witness :
  (exists ino,
      ino_or_zero (Arena.view Samples.tree) 1 = Returns ino /\
      _do_get_path (Arena.view Samples.tree) 2 1 50 6 50 =
      Returns (PyStr.drop_last (joined [PyStr.strip "/" "socket:1234"]) ++ ":["
               ++ PyStr.format_d ino ++ "]")) /\
  (exists ino,
      ino_or_zero (Arena.view BindMount.snap) 2 = Returns ino /\
      _do_get_path (Arena.view BindMount.snap) 2 2 50 2 51 =
      Returns (PyStr.drop_last (joined [PyStr.strip "/" "pipe:x"]) ++ ":["
               ++ PyStr.format_d ino ++ "]")).
Proof.
  split.
  - refine (proj1 (proj2 (inode_number_of_exit_entry (Arena.view Samples.tree) 0 1 50 6
                            "socket:1234") _ _ _ _) 1 _ _ _ _);
      first [reflexivity | discriminate].
  - refine (proj2 (proj2 (inode_number_of_exit_entry (Arena.view BindMount.snap) 0 2 50 2
                            "pipe:x") _ _ _ _) 51 _ _ _ _);
      first [reflexivity | discriminate].
Defined.
